(** * pos-pal: the bill composition and totals engine, the bill-number
      sequencer, the bill store and the report summary.

    Shallow embedding of
      - lib/db, the second half of src/lib/print.ts  (createBill, getBill,
                        getAllBills, updateBill, getLastBillNumber),
      - pages/Billing  (addToCart, updateQuantity, removeFromCart,
                        calculateTotals, handleSaveBill),
      - pages/Reports  (totalSales, totalItems, avgBillValue).

    Conventions of the model.
      - A JavaScript [number] that holds money or a tax rate is a rational
        [Q]; results are compared with [==].  A quantity is an integer
        [Z].  The number [parseInt] yields is an integer-valued double (or
        NaN): an integer [Z] rounded to 53 significant bits, to nearest
        and ties to even, where it is read and where 1 is added.
      - A JavaScript string is a [string] of 8-bit characters (code units
        below 256).
      - An object store lists its records in ascending order of their
        key, the [id], as the store the code opens with [keyPath: 'id']
        does.
      - A promise is its outcome: [Resolved v] or [Rejected e]. *)

From Stdlib Require Import ZArith QArith List Bool Lia Sorted.
From Stdlib Require Import Ascii String DecimalString.
From Stdlib Require Import DecimalNat DecimalPos DecimalN.
Import ListNotations.

#[local] Open Scope string_scope.
#[local] Open Scope Z_scope.

(* ================================================================== *)
(** ** The JavaScript built-ins the sequencer calls *)
(* ================================================================== *)

Module JS.

(** The value of [parseInt]: an integer or NaN. *)
Inductive number : Type :=
| Num (z : Z)
| NaN.

(** The double nearest to the integer [z], ties to even: [z] itself up to
    2^53 in magnitude; beyond, [z] rounded to 53 significant bits.  (For
    magnitudes below 2^1024; the infinities are not modelled.) *)
Definition roundDouble (z : Z) : Z :=
  let a := Z.abs z in
  if a <=? 2 ^ 53 then z
  else
    let e := Z.log2 a - 52 in
    let q := Z.shiftr a e in
    let r := a - Z.shiftl q e in
    let half := Z.shiftl 1 (e - 1) in
    let m :=
      if r <? half then q
      else if half <? r then q + 1
      else if Z.even q then q else q + 1 in
    Z.sgn z * Z.shiftl m e.

(** [x + k] for an integer constant [k], as doubles add: the exact sum,
    rounded; NaN is absorbing. *)
Definition add (x : number) (k : Z) : number :=
  match x with
  | Num z => Num (roundDouble (z + k))
  | NaN => NaN
  end.

(** [String(x)]: the decimal numeral, with a leading [-] below zero, and
    the text NaN for NaN.  This is what JavaScript prints for an integer
    up to 2^53 in magnitude; beyond, JavaScript prints the shortest digits
    that read back as the same double (an exponent form from 10^21), which
    this function does not follow. *)
Definition toString (x : number) : string :=
  match x with
  | Num z => NilZero.string_of_int (Z.to_int z)
  | NaN => "NaN"
  end.

(** [n] characters taken cyclically from [fill], starting at [cur]. *)
Fixpoint cycle (fill cur : string) (n : nat) : string :=
  match n with
  | O => ""
  | S n' =>
      match cur with
      | String c rest => String c (cycle fill rest n')
      | EmptyString =>
          match fill with
          | String c rest => String c (cycle fill rest n')
          | EmptyString => ""
          end
      end
  end.

(** [s.padStart(targetLength, padString)]. *)
Definition padStart (targetLength : nat) (padString s : string) : string :=
  if (targetLength <=? String.length s)%nat then s
  else cycle padString padString (targetLength - String.length s) ++ s.

(** [s] without its first [n] characters. *)
Fixpoint drop (n : nat) (s : string) : string :=
  match n, s with
  | O, _ => s
  | S n', String _ rest => drop n' rest
  | S _, EmptyString => ""
  end.

(** [s.replace(pat, rep)] for a string pattern and a replacement without
    [$]: the first occurrence of [pat] only. *)
Fixpoint replace (pat rep s : string) : string :=
  if String.prefix pat s then rep ++ drop (String.length pat) s
  else
    match s with
    | EmptyString => ""
    | String c rest => String c (replace pat rep rest)
    end.

(** White space that [parseInt] skips (the 8-bit part of it). *)
Definition isWhiteSpace (c : ascii) : bool :=
  let n := nat_of_ascii c in
  ((9 <=? n) && (n <=? 13) || (n =? 32) || (n =? 160))%nat.

Fixpoint trimStart (s : string) : string :=
  match s with
  | String c rest => if isWhiteSpace c then trimStart rest else s
  | EmptyString => ""
  end.

(** The value of [c] as a digit, whatever the radix. *)
Definition digitValue (c : ascii) : option Z :=
  let n := Z.of_nat (nat_of_ascii c) in
  if (48 <=? n) && (n <=? 57) then Some (n - 48)
  else if (97 <=? n) && (n <=? 122) then Some (n - 97 + 10)
  else if (65 <=? n) && (n <=? 90) then Some (n - 65 + 10)
  else None.

(** The digits of the longest prefix of [s] made of radix-[r] digits. *)
Fixpoint radixDigits (r : Z) (s : string) : list Z :=
  match s with
  | EmptyString => []
  | String c rest =>
      match digitValue c with
      | Some d => if d <? r then d :: radixDigits r rest else []
      | None => []
      end
  end.

Definition digitsValue (r : Z) (ds : list Z) : Z :=
  fold_left (fun acc d => acc * r + d) ds 0.

(** [parseInt(s)] with no radix argument: skip white space, read a sign,
    read a [0x] or [0X] prefix (radix 16, else 10), then the longest run
    of digits; NaN when that run is empty. *)
Definition parseInt (s : string) : number :=
  let s1 := trimStart s in
  let '(sign, s2) :=
    match s1 with
    | String "-"%char rest => (-1, rest)
    | String "+"%char rest => (1, rest)
    | _ => (1, s1)
    end in
  let '(radix, s3) :=
    match s2 with
    | String "0"%char (String "x"%char rest) => (16, rest)
    | String "0"%char (String "X"%char rest) => (16, rest)
    | _ => (10, s2)
    end in
  match radixDigits radix s3 with
  | [] => NaN
  | ds => Num (roundDouble (sign * digitsValue radix ds))
  end.

End JS.

(* ================================================================== *)
(** ** Records (types.ts, as the sources use them) *)
(* ================================================================== *)

Record MenuItem : Type := mkMenuItem {
  mi_id : string;
  mi_name : string;
  mi_price : Q;
  mi_category : string;
  mi_isAvailable : bool
}.

Record BillItem : Type := mkBillItem {
  menuItemId : string;
  name : string;
  price : Q;
  quantity : Z;
  subtotal : Q
}.

Inductive PaymentMethod : Type := cash | card | upi.

Record Bill : Type := mkBill {
  id : string;
  billNumber : string;
  items : list BillItem;
  bill_subtotal : Q;
  cgst : Q;
  sgst : Q;
  total : Q;
  createdBy : string;
  createdByName : string;
  createdAt : string;
  paymentMethod : option PaymentMethod;
  customerName : option string;
  customerPhone : option string;
  syncedToCloud : bool
}.

(** The two rates are optional: Billing reads them with [|| 2.5]. *)
Record AppSettings : Type := mkAppSettings {
  shopName : string;
  cgstRate : option Q;
  sgstRate : option Q;
  currency : string
}.

Record User : Type := mkUser {
  user_id : string;
  user_name : string
}.

(* ================================================================== *)
(** ** The bill store (db.ts) *)
(* ================================================================== *)

Module Db.

(** How a promise settles. *)
Inductive outcome (A : Type) : Type :=
| Resolved (v : A)
| Rejected (e : string).
Arguments Resolved {A} v.
Arguments Rejected {A} e.

(** The [bills] object store: its records in the order [getAll] lists
    them, the ascending order of their [id]. *)
Definition store : Type := list Bill.

Definition has_key (k : string) (s : store) : bool :=
  existsb (fun b => String.eqb (id b) k) s.

(** A new record takes its place by key: before the first record whose
    [id] comes after its own, strings being compared code unit by code
    unit. *)
Fixpoint insert (b : Bill) (s : store) : store :=
  match s with
  | [] => [b]
  | x :: rest =>
      if String.ltb (id b) (id x) then b :: x :: rest
      else x :: insert b rest
  end.

(** The record under the [id] of [b] gives way to [b], where it stands. *)
Fixpoint replace (b : Bill) (s : store) : store :=
  match s with
  | [] => []
  | x :: rest =>
      if String.eqb (id x) (id b) then b :: rest else x :: replace b rest
  end.

(** Modelled from the spec: the [add] of the object store (the idb
    package, not part of the sources): an identifier already present is
    refused; otherwise the record is stored.  It is stored at the place
    of its key: the store is opened with [keyPath: 'id'] and lists its
    records in ascending order of the key, which is the order of
    insertion only as long as the ids grow. *)
Definition db_add (b : Bill) (s : store) : outcome store :=
  if has_key (id b) s then Rejected "ConstraintError"
  else Resolved (insert b s).

(** Modelled from the spec: the [put] of the object store, an upsert:
    the record with the same identifier is replaced where it stands, a
    new one is stored at the place of its key. *)
Definition db_put (b : Bill) (s : store) : store :=
  if has_key (id b) s then replace b s else insert b s.

(** Modelled from the spec: the [get] of the object store. *)
Definition db_get (k : string) (s : store) : option Bill :=
  find (fun b => String.eqb (id b) k) s.

(** [createBill]: [await db.add('bills', bill)]. *)
Definition createBill (b : Bill) (s : store) : outcome store :=
  db_add b s.

(** [getBill]. *)
Definition getBill (k : string) (s : store) : option Bill :=
  db_get k s.

(** [getAllBills]. *)
Definition getAllBills (s : store) : list Bill := s.

(** [updateBill]: [await db.put('bills', bill)]. *)
Definition updateBill (b : Bill) (s : store) : store :=
  db_put b s.

(** [getLastBillNumber]: the promise always resolves; no path of the
    function throws. *)
Definition getLastBillNumber (s : store) : outcome string :=
  let bills := getAllBills s in
  match bills with
  | [] => Resolved "BILL0000"
  | first :: rest =>
      let lastBill := last rest first in
      let lastNumber := JS.parseInt (JS.replace "BILL" "" (billNumber lastBill)) in
      Resolved ("BILL" ++ JS.padStart 4 "0" (JS.toString (JS.add lastNumber 1)))
  end.

End Db.

(* ================================================================== *)
(** ** The Billing page: cart, totals, saving a bill *)
(* ================================================================== *)

Module Billing.

Definition Cart : Type := list BillItem.

Definition sameItem (k : string) (cartItem : BillItem) : bool :=
  String.eqb (menuItemId cartItem) k.

(** [addToCart]. *)
Definition addToCart (item : MenuItem) (cart : Cart) : Cart :=
  match find (sameItem (mi_id item)) cart with
  | Some existingItem =>
      map (fun cartItem =>
             if sameItem (mi_id item) cartItem
             then mkBillItem (menuItemId cartItem) (name cartItem)
                    (price cartItem) (quantity cartItem + 1)
                    (inject_Z (quantity cartItem + 1) * price cartItem)%Q
             else cartItem) cart
  | None =>
      (cart ++ [mkBillItem (mi_id item) (mi_name item) (mi_price item)
                  1 (mi_price item)])%list
  end.

(** [updateQuantity]. *)
Definition updateQuantity (k : string) (delta : Z) (cart : Cart) : Cart :=
  map (fun item =>
         if sameItem k item then
           let newQuantity := quantity item + delta in
           if newQuantity <=? 0 then item
           else mkBillItem (menuItemId item) (name item) (price item)
                  newQuantity (inject_Z newQuantity * price item)%Q
         else item) cart.

(** [removeFromCart]. *)
Definition removeFromCart (k : string) (cart : Cart) : Cart :=
  filter (fun item => negb (sameItem k item)) cart.

(** [x || d] on a number that may be missing: zero and undefined are
    falsy. *)
Definition orDefault (x : option Q) (d : Q) : Q :=
  match x with
  | Some q => if Qeq_bool q 0%Q then d else q
  | None => d
  end.

(** [settings?.f]. *)
Definition optField {A : Type} (f : AppSettings -> option A)
    (settings : option AppSettings) : option A :=
  match settings with
  | Some s => f s
  | None => None
  end.

Record Totals : Type := mkTotals {
  t_subtotal : Q;
  t_cgst : Q;
  t_sgst : Q;
  t_total : Q
}.

(** [calculateTotals], a function of the two state variables it reads. *)
Definition calculateTotals (cart : Cart) (settings : option AppSettings)
    : Totals :=
  let subtotal :=
    fold_left (fun sum item => sum + subtotal item)%Q cart 0%Q in
  let cgst :=
    (subtotal * orDefault (optField cgstRate settings) 2.5 / 100)%Q in
  let sgst :=
    (subtotal * orDefault (optField sgstRate settings) 2.5 / 100)%Q in
  let total := (subtotal + cgst + sgst)%Q in
  mkTotals subtotal cgst sgst total.

Inductive Variant : Type := default | destructive.

Record Toast : Type := mkToast {
  title : string;
  description : string;
  variant : Variant
}.

(** What [handleSaveBill] does to the world outside the component, in
    order. *)
Inductive Effect : Type :=
| toast (t : Toast)
| call_getLastBillNumber
| call_createBill (b : Bill)
| call_printBill (b : Bill) (s : AppSettings)
| console_error (msg : string).

(** The component's state variables, the signed-in user, the bill store
    and the effects so far. *)
Record State : Type := mkState {
  st_cart : Cart;
  st_customerName : string;
  st_customerPhone : string;
  st_paymentMethod : PaymentMethod;
  st_settings : option AppSettings;
  st_user : option User;
  st_bills : Db.store;
  st_effects : list Effect
}.

Definition emit (es : list Effect) (st : State) : State :=
  mkState (st_cart st) (st_customerName st) (st_customerPhone st)
    (st_paymentMethod st) (st_settings st) (st_user st) (st_bills st)
    (st_effects st ++ es).

(** [s || undefined] on a string. *)
Definition orUndefined (s : string) : option string :=
  if String.eqb s "" then None else Some s.

Definition emptyCartToast : Toast :=
  mkToast "Empty Cart" "Please add items to the cart before saving"
    destructive.

Definition missingContextToast : Toast :=
  mkToast "Error" "User or settings not found" destructive.

Definition savedToast (billNumber : string) : Toast :=
  mkToast "Bill Saved"
    ("Bill " ++ billNumber ++ " saved successfully!") default.

Definition failedToast : Toast :=
  mkToast "Error" "Failed to save bill" destructive.

(** The [catch] block. *)
Definition onError (st : State) : State :=
  emit [console_error "Failed to save bill:"; toast failedToast] st.

(** The object literal [bill] of [handleSaveBill]; [now] is [Date.now()]
    and [nowIso] is [new Date().toISOString()]. *)
Definition newBill (now : Z) (nowIso : string) (billNumber : string)
    (t : Totals) (user : User) (st : State) : Bill :=
  mkBill ("bill-" ++ JS.toString (JS.Num now)) billNumber (st_cart st)
    (t_subtotal t) (t_cgst t) (t_sgst t) (t_total t)
    (user_id user) (user_name user) nowIso
    (Some (st_paymentMethod st))
    (orUndefined (st_customerName st))
    (orUndefined (st_customerPhone st))
    false.

(** [handleSaveBill]. *)
Definition handleSaveBill (shouldPrint : bool) (now : Z) (nowIso : string)
    (st : State) : State :=
  if (List.length (st_cart st) =? 0)%nat then
    emit [toast emptyCartToast] st
  else
    match st_user st, st_settings st with
    | Some user, Some settings =>
        let st1 := emit [call_getLastBillNumber] st in
        match Db.getLastBillNumber (st_bills st1) with
        | Db.Rejected _ => onError st1
        | Db.Resolved billNumber =>
            let t := calculateTotals (st_cart st1) (st_settings st1) in
            let bill := newBill now nowIso billNumber t user st1 in
            let st2 := emit [call_createBill bill] st1 in
            match Db.createBill bill (st_bills st2) with
            | Db.Rejected _ => onError st2
            | Db.Resolved bills' =>
                let printed :=
                  if shouldPrint then [call_printBill bill settings]
                  else [] in
                mkState [] "" "" cash (st_settings st2) (st_user st2)
                  bills'
                  (st_effects st2
                     ++ toast (savedToast billNumber) :: printed)
            end
        end
    | _, _ => emit [toast missingContextToast] st
    end.

(** A step of cart editing, as the buttons of the page issue them. *)
Inductive CartOp : Type :=
| addItem (item : MenuItem)
| changeQuantity (k : string) (delta : Z)
| removeItem (k : string).

Definition applyOp (cart : Cart) (op : CartOp) : Cart :=
  match op with
  | addItem item => addToCart item cart
  | changeQuantity k delta => updateQuantity k delta cart
  | removeItem k => removeFromCart k cart
  end.

Definition runOps (ops : list CartOp) : Cart :=
  fold_left applyOp ops [].

End Billing.

(* ================================================================== *)
(** ** The Reports page: the summary of the filtered bills *)
(* ================================================================== *)

Module Reports.

Definition totalSales (filteredBills : list Bill) : Q :=
  fold_left (fun sum bill => sum + total bill)%Q filteredBills 0%Q.

Definition totalItems (filteredBills : list Bill) : Z :=
  fold_left (fun sum bill => (sum + Z.of_nat (List.length (items bill)))%Z)
    filteredBills 0%Z.

Definition billCount (filteredBills : list Bill) : Z :=
  Z.of_nat (List.length filteredBills).

Definition avgBillValue (filteredBills : list Bill) : Q :=
  if (0 <? billCount filteredBills)%Z
  then (totalSales filteredBills / inject_Z (billCount filteredBills))%Q
  else 0%Q.

End Reports.

(* ================================================================== *)
(** ** More built-ins: case, search, slices *)
(* ================================================================== *)

Module JSText.

(** [toLowerCase] on one code unit below 256: the capitals A-Z and the
    accented capitals 192-222 (215, the multiplication sign, apart) move
    up by 32; the rest stay.  Below 256 no character is lower-cased by
    its context, so a string of such code units is lower-cased one code
    unit at a time; the strings of this file hold nothing else. *)
Definition lowerChar (c : ascii) : ascii :=
  let n := nat_of_ascii c in
  if ((65 <=? n) && (n <=? 90)
      || (192 <=? n) && (n <=? 222) && negb (n =? 215))%nat
  then ascii_of_nat (n + 32)
  else c.

Fixpoint toLowerCase (s : string) : string :=
  match s with
  | EmptyString => ""
  | String c rest => String (lowerChar c) (toLowerCase rest)
  end.

(** [s.includes(q)]: [q] occurs in [s]. *)
Fixpoint includes (q s : string) : bool :=
  if String.prefix q s then true
  else
    match s with
    | EmptyString => false
    | String _ rest => includes q rest
    end.

(** [xs.slice(start, stop)] for two non-negative integers. *)
Definition slice {A : Type} (start stop : nat) (xs : list A) : list A :=
  firstn (stop - start) (skipn start xs).

(** [Array.from(new Set(xs))]: the first occurrence of each string, in
    order. *)
Definition setFrom (xs : list string) : list string :=
  fold_left
    (fun seen x => if existsb (String.eqb x) seen then seen
                   else (seen ++ [x])%list)
    xs [].

End JSText.

(* ================================================================== *)
(** ** The Billing page: the menu it offers *)
(* ================================================================== *)

Module BillingMenu.

(** [loadData] keeps the available items of [getAllMenuItems]. *)
Definition loadMenuItems (items : list MenuItem) : list MenuItem :=
  filter (fun item => mi_isAvailable item) items.

(** [categories]. *)
Definition categories (menuItems : list MenuItem) : list string :=
  "all" :: JSText.setFrom (map (fun item => mi_category item) menuItems).

(** [filteredItems]. *)
Definition filteredItems (selectedCategory searchQuery : string)
    (menuItems : list MenuItem) : list MenuItem :=
  filter
    (fun item =>
       let matchesCategory :=
         String.eqb selectedCategory "all"
         || String.eqb (mi_category item) selectedCategory in
       let matchesSearch :=
         JSText.includes (JSText.toLowerCase searchQuery)
           (JSText.toLowerCase (mi_name item)) in
       matchesCategory && matchesSearch)
    menuItems.

End BillingMenu.

(* ================================================================== *)
(** ** The Reports page: the table of bills *)
(* ================================================================== *)

Module ReportsTable.

(** The rows of the table: [filteredBills.slice(0, 50)]. *)
Definition tableRows (filteredBills : list Bill) : list Bill :=
  JSText.slice 0 50 filteredBills.

End ReportsTable.

(* ================================================================== *)
(** ** The bill store: queries *)
(* ================================================================== *)

Module DbQuery.

(** [getBillsByDateRange]: the two tests compare strings, code unit by
    code unit. *)
Definition getBillsByDateRange (startDate endDate : string) (s : Db.store)
    : list Bill :=
  let allBills := Db.getAllBills s in
  filter (fun bill => String.leb startDate (createdAt bill)
                      && String.leb (createdAt bill) endDate) allBills.

End DbQuery.

(* ================================================================== *)
(** ** The menu store (db.ts) *)
(* ================================================================== *)

Module MenuDb.

(** The [menuItems] object store: its records in the order [getAll] lists
    them, the ascending order of their [id]. *)
Definition store : Type := list MenuItem.

Definition keyIs (k : string) (item : MenuItem) : bool :=
  String.eqb (mi_id item) k.

(** A new item takes its place by key, as a new bill does. *)
Fixpoint insert (item : MenuItem) (s : store) : store :=
  match s with
  | [] => [item]
  | x :: rest =>
      if String.ltb (mi_id item) (mi_id x) then item :: x :: rest
      else x :: insert item rest
  end.

(** [createMenuItem]: [await db.add('menuItems', item)], with [add] as
    for the bills. *)
Definition createMenuItem (item : MenuItem) (s : store) : Db.outcome store :=
  if existsb (keyIs (mi_id item)) s then Db.Rejected "ConstraintError"
  else Db.Resolved (insert item s).

(** [getMenuItem]. *)
Definition getMenuItem (k : string) (s : store) : option MenuItem :=
  find (keyIs k) s.

(** [getAllMenuItems]. *)
Definition getAllMenuItems (s : store) : list MenuItem := s.

(** Modelled from the spec: the [delete] of the object store (the idb
    package): the record under the key goes, and nothing happens when
    there is none. *)
Definition db_delete (k : string) (s : store) : store :=
  filter (fun item => negb (keyIs k item)) s.

(** [deleteMenuItem]: [await db.delete('menuItems', id)]. *)
Definition deleteMenuItem (k : string) (s : store) : store :=
  db_delete k s.

End MenuDb.

(* ================================================================== *)
(** ** The properties, as predicates *)
(* ================================================================== *)

(** A cart line is well formed: a positive quantity, and a subtotal that
    is the quantity times the captured unit price. *)
Definition lineOk (l : BillItem) : Prop :=
  (1 <= quantity l)%Z /\ (subtotal l == inject_Z (quantity l) * price l)%Q.

(** The mathematical sum of a list of rationals. *)
Definition sumQ (xs : list Q) : Q := fold_right Qplus 0%Q xs.

(** No two lines of the cart are for the same menu item. *)
Definition distinctItems (cart : Billing.Cart) : Prop :=
  NoDup (map menuItemId cart).

(** The rate of a setting that is unset or not zero: the configured one
    when it is set, 2.5 when it is unset.  (A configured rate of zero is
    left out.) *)
Definition rateUsed (configured : option Q) (r : Q) : Prop :=
  match configured with
  | Some q => (~ q == 0 /\ r = q)%Q
  | None => r = 2.5%Q
  end.

(** The mathematical sum of a list of integers. *)
Definition sumZ (xs : list Z) : Z := fold_right Z.add 0%Z xs.

(** [k] zeros. *)
Fixpoint zeros (k : nat) : string :=
  match k with
  | O => ""
  | S k' => String "0" (zeros k')
  end.

(** Whether a promise was rejected. *)
Definition isRejected {A : Type} (o : Db.outcome A) : bool :=
  match o with
  | Db.Rejected _ => true
  | Db.Resolved _ => false
  end.

(** The monetary invariant of a bill. *)
Definition billOk (b : Bill) : Prop :=
  (total b == bill_subtotal b + cgst b + sgst b)%Q
  /\ (bill_subtotal b == sumQ (map subtotal (items b)))%Q.

(** The effects a call added to the trace. *)
Definition newEffects (before after : Billing.State) : list Billing.Effect :=
  skipn (List.length (Billing.st_effects before)) (Billing.st_effects after).

(** Every item a sequence of cart steps adds has a price of zero or
    more. *)
Definition addsNonnegPrices (ops : list Billing.CartOp) : Prop :=
  Forall (fun op => match op with
                    | Billing.addItem item => (0 <= mi_price item)%Q
                    | _ => True
                    end) ops.

(** The store lists its bills in strictly ascending order of their ids. *)
Definition ascendingIds (s : Db.store) : Prop :=
  Sorted (fun p q => String.ltb p q = true) (map id s).

(** No string occurs twice in the list. *)
Fixpoint distinctb (xs : list string) : bool :=
  match xs with
  | [] => true
  | x :: rest => negb (existsb (String.eqb x) rest) && distinctb rest
  end.

(** The bill number the sequencer writes for the number [z]. *)
Definition billNumberOf (z : Z) : string :=
  "BILL" ++ JS.padStart 4 "0" (JS.toString (JS.Num z)).

(* ================================================================== *)
(** ** Sample data, after initializeDefaultData *)
(* ================================================================== *)

Definition sampleSettings (r1 r2 : option Q) : AppSettings :=
  mkAppSettings "My Restaurant" r1 r2 "Rs".

Definition sampleCart : Billing.Cart :=
  [mkBillItem "menu-2" "Paneer Tikka" 200 3 600;
   mkBillItem "menu-3" "Butter Chicken" 280 1 280;
   mkBillItem "menu-5" "Fresh Lime Soda" 60 2 120]%Q.

Definition sampleUser : User := mkUser "user-1" "Admin User".

Definition sampleBill (k number stamp : string) (lines : list BillItem)
    (sub tax1 tax2 tot : Q) : Bill :=
  mkBill k number lines sub tax1 tax2 tot "user-1" "Admin User" stamp
    (Some cash) None None false.

(** Bills numbered from 0 to [n - 1], one per identifier. *)
Definition sampleBills (n : nat) : list Bill :=
  map (fun i =>
         sampleBill ("bill-" ++ JS.toString (JS.Num (Z.of_nat i)))
           (billNumberOf (Z.of_nat i)) "2024-03-15T10:00:00.000Z" []
           0 0 0 0)
      (seq 0 n).

Definition sampleState (cart : Billing.Cart) (user : option User)
    (settings : option AppSettings) (bills : Db.store) : Billing.State :=
  Billing.mkState cart "" "" cash settings user bills [].

(* ================================================================== *)
(** ** The cart *)
(* ================================================================== *)

Section CartInvariant.

Import Billing.

Lemma lineOk_new (item : MenuItem) :
  lineOk (mkBillItem (mi_id item) (mi_name item) (mi_price item) 1
            (mi_price item)).
Proof.
  split; simpl; [lia|].
  now rewrite Qmult_1_l.
Qed.

Lemma lineOk_requantified (l : BillItem) (q : Z) :
  (1 <= q)%Z ->
  lineOk (mkBillItem (menuItemId l) (name l) (price l) q
            (inject_Z q * price l)%Q).
Proof.
  intros Hq; split; simpl; [exact Hq | reflexivity].
Qed.

Lemma addToCart_lineOk (item : MenuItem) (cart : Cart) :
  Forall lineOk cart -> Forall lineOk (addToCart item cart).
Proof.
  intros Hcart. unfold addToCart.
  destruct (find (sameItem (mi_id item)) cart) as [existing|].
  - rewrite Forall_forall in *. intros l Hl.
    apply in_map_iff in Hl as [l0 [<- Hl0]].
    destruct (sameItem (mi_id item) l0).
    + apply lineOk_requantified.
      destruct (Hcart l0 Hl0) as [Hq _]. lia.
    + now apply Hcart.
  - apply Forall_app; split; [exact Hcart|].
    constructor; [apply lineOk_new | constructor].
Qed.

Lemma updateQuantity_lineOk (k : string) (delta : Z) (cart : Cart) :
  Forall lineOk cart -> Forall lineOk (updateQuantity k delta cart).
Proof.
  intros Hcart. unfold updateQuantity.
  rewrite Forall_forall in *. intros l Hl.
  apply in_map_iff in Hl as [l0 [<- Hl0]].
  destruct (sameItem k l0); [|now apply Hcart].
  cbv zeta. destruct (Z.leb_spec (quantity l0 + delta) 0) as [Hle|Hgt].
  - now apply Hcart.
  - apply lineOk_requantified. lia.
Qed.

Lemma removeFromCart_lineOk (k : string) (cart : Cart) :
  Forall lineOk cart -> Forall lineOk (removeFromCart k cart).
Proof.
  intros Hcart. unfold removeFromCart.
  rewrite Forall_forall in *. intros l Hl.
  apply filter_In in Hl as [Hl _]. now apply Hcart.
Qed.

Lemma applyOp_lineOk (cart : Cart) (op : CartOp) :
  Forall lineOk cart -> Forall lineOk (applyOp cart op).
Proof.
  destruct op; simpl.
  - apply addToCart_lineOk.
  - apply updateQuantity_lineOk.
  - apply removeFromCart_lineOk.
Qed.

Lemma fold_applyOp_lineOk (ops : list CartOp) :
  forall cart, Forall lineOk cart -> Forall lineOk (fold_left applyOp ops cart).
Proof.
  induction ops as [|op ops IH]; intros cart Hcart; simpl.
  - exact Hcart.
  - apply IH, applyOp_lineOk, Hcart.
Qed.

(** C2.  Whatever sequence of addToCart, updateQuantity and
    removeFromCart calls is made from the empty cart, every line left in
    the cart has a quantity of at least 1 and a subtotal equal to its
    quantity times its captured unit price. *)
Theorem cart_lines_wellformed (ops : list CartOp) :
  Forall lineOk (runOps ops).
Proof.
  unfold runOps. apply fold_applyOp_lineOk. constructor.
Qed.

(** The lines of a cart built by the three operations are for distinct
    menu items. *)

Lemma find_sameItem_none (k : string) (cart : Cart) :
  find (sameItem k) cart = None -> ~ In k (map menuItemId cart).
Proof.
  intros Hnone Hin. apply in_map_iff in Hin as [l [Hk Hl]].
  apply (find_none _ _ Hnone) in Hl.
  unfold sameItem in Hl. rewrite Hk, String.eqb_refl in Hl. discriminate.
Qed.

Lemma addToCart_ids (item : MenuItem) (cart : Cart) :
  map menuItemId (addToCart item cart)
  = match find (sameItem (mi_id item)) cart with
    | Some _ => map menuItemId cart
    | None => (map menuItemId cart ++ [mi_id item])%list
    end.
Proof.
  unfold addToCart.
  destruct (find (sameItem (mi_id item)) cart).
  - rewrite map_map. apply map_ext. intros l.
    now destruct (sameItem (mi_id item) l).
  - now rewrite map_app.
Qed.

Lemma updateQuantity_ids (k : string) (delta : Z) (cart : Cart) :
  map menuItemId (updateQuantity k delta cart) = map menuItemId cart.
Proof.
  unfold updateQuantity. rewrite map_map. apply map_ext. intros l.
  destruct (sameItem k l); [|reflexivity].
  cbv zeta. now destruct (quantity l + delta <=? 0)%Z.
Qed.

Lemma removeFromCart_distinct (k : string) (cart : Cart) :
  distinctItems cart -> distinctItems (removeFromCart k cart).
Proof.
  unfold distinctItems, removeFromCart.
  induction cart as [|l cart IH]; simpl; intros Hnd; [exact Hnd|].
  inversion Hnd as [|? ? Hnotin Hrest]; subst.
  destruct (negb (sameItem k l)); simpl.
  - constructor; [|now apply IH].
    intros Hin. apply Hnotin.
    apply in_map_iff in Hin as [l' [Hid Hl']].
    apply filter_In in Hl' as [Hl' _].
    apply in_map_iff. now exists l'.
  - now apply IH.
Qed.

Lemma applyOp_distinct (cart : Cart) (op : CartOp) :
  distinctItems cart -> distinctItems (applyOp cart op).
Proof.
  destruct op as [item|k delta|k]; simpl; intros Hnd.
  - unfold distinctItems. rewrite addToCart_ids.
    destruct (find (sameItem (mi_id item)) cart) eqn:Hfind; [exact Hnd|].
    apply find_sameItem_none in Hfind.
    rewrite <- (rev_involutive (map menuItemId cart ++ [mi_id item])).
    apply NoDup_rev. rewrite rev_app_distr. simpl.
    constructor.
    + now rewrite <- in_rev.
    + now apply NoDup_rev.
  - unfold distinctItems. now rewrite updateQuantity_ids.
  - now apply removeFromCart_distinct.
Qed.

Lemma runOps_distinct (ops : list CartOp) : distinctItems (runOps ops).
Proof.
  unfold runOps.
  assert (H : forall cart, distinctItems cart ->
                           distinctItems (fold_left applyOp ops cart)).
  { induction ops as [|op ops IH]; intros cart Hc; simpl; [exact Hc|].
    apply IH, applyOp_distinct, Hc. }
  apply H. constructor.
Qed.

End CartInvariant.

Section CartDecrement.

Import Billing.

Lemma same_id_same_line (cart : Cart) (l l' : BillItem) :
  distinctItems cart -> In l cart -> In l' cart ->
  menuItemId l' = menuItemId l -> l' = l.
Proof.
  unfold distinctItems.
  induction cart as [|x cart IH]; simpl; intros Hnd Hl Hl' Hid; [easy|].
  inversion Hnd as [|? ? Hnotin Hrest]; subst.
  destruct Hl as [->|Hl], Hl' as [->|Hl']; try reflexivity.
  - exfalso. apply Hnotin. rewrite <- Hid. now apply in_map.
  - exfalso. apply Hnotin. rewrite Hid. now apply in_map.
  - now apply IH.
Qed.

(** C8.  When the quantity of a line plus the delta is zero or less,
    updateQuantity leaves that line where it is, with the same quantity
    and subtotal, and removes nothing from the cart. *)
Theorem updateQuantity_nonpositive_noop
    (cart : Cart) (k : string) (delta : Z) (i : nat) (l : BillItem) :
  nth_error cart i = Some l ->
  menuItemId l = k ->
  (quantity l + delta <= 0)%Z ->
  nth_error (updateQuantity k delta cart) i = Some l
  /\ List.length (updateQuantity k delta cart) = List.length cart
  /\ In l (updateQuantity k delta cart).
Proof.
  intros Hnth Hid Hle.
  assert (Hsame : nth_error (updateQuantity k delta cart) i = Some l).
  { unfold updateQuantity. rewrite nth_error_map, Hnth. simpl.
    unfold sameItem. rewrite Hid, String.eqb_refl.
    apply Z.leb_le in Hle. now rewrite Hle. }
  split; [exact Hsame|]. split.
  - unfold updateQuantity. apply length_map.
  - eapply nth_error_In, Hsame.
Qed.

Lemma updateQuantity_nonpositive_noop_witness :
  let l := mkBillItem "menu-1" "Veg Manchurian" 150%Q 2 300%Q in
  nth_error (updateQuantity "menu-1" (-2) [l]) 0 = Some l
  /\ List.length (updateQuantity "menu-1" (-2) [l]) = 1%nat
  /\ In l (updateQuantity "menu-1" (-2) [l]).
Proof.
  intros l.
  apply (updateQuantity_nonpositive_noop [l] "menu-1" (-2) 0 l);
    [reflexivity | reflexivity | simpl; lia].
Defined.

(** On a cart whose lines are for distinct menu items, as every cart the
    page builds is, the rejected decrement changes nothing at all. *)
Lemma updateQuantity_rejected_whole_cart
    (cart : Cart) (k : string) (delta : Z) (l : BillItem) :
  distinctItems cart -> In l cart -> menuItemId l = k ->
  (quantity l + delta <= 0)%Z ->
  updateQuantity k delta cart = cart.
Proof.
  intros Hnd Hl Hid Hle. unfold updateQuantity.
  rewrite <- (map_id cart) at 2. apply map_ext_in. intros l' Hl'.
  unfold sameItem. destruct (String.eqb_spec (menuItemId l') k) as [Hk|Hk];
    [|reflexivity].
  assert (l' = l) as -> by (apply (same_id_same_line cart); congruence).
  cbv zeta. apply Z.leb_le in Hle. now rewrite Hle.
Qed.

Lemma updateQuantity_accepted
    (cart : Cart) (k : string) (delta : Z) (i : nat) (l : BillItem) :
  nth_error cart i = Some l -> menuItemId l = k ->
  (0 < quantity l + delta)%Z ->
  nth_error (updateQuantity k delta cart) i
  = Some (mkBillItem (menuItemId l) (name l) (price l)
            (quantity l + delta)
            (inject_Z (quantity l + delta) * price l)%Q).
Proof.
  intros Hnth Hid Hpos.
  unfold updateQuantity. rewrite nth_error_map, Hnth. simpl.
  unfold sameItem. rewrite Hid, String.eqb_refl.
  destruct (Z.leb_spec (quantity l + delta) 0); [lia | reflexivity].
Qed.

End CartDecrement.

(* ================================================================== *)
(** ** The totals *)
(* ================================================================== *)

Section Totals.

Import Billing.

Lemma fold_left_sumQ {A : Type} (f : A -> Q) (xs : list A) :
  forall a : Q,
    (fold_left (fun sum x => sum + f x) xs a == a + sumQ (map f xs))%Q.
Proof.
  induction xs as [|x xs IH]; intros a; simpl.
  - now rewrite Qplus_0_r.
  - rewrite IH. now rewrite Qplus_assoc.
Qed.

Lemma calculateTotals_subtotal (cart : Cart) (settings : option AppSettings) :
  (t_subtotal (calculateTotals cart settings)
   == sumQ (map subtotal cart))%Q.
Proof.
  unfold calculateTotals; simpl.
  rewrite fold_left_sumQ. apply Qplus_0_l.
Qed.

Lemma orDefault_rateUsed (configured : option Q) (r : Q) :
  rateUsed configured r -> (orDefault configured 2.5 == r)%Q.
Proof.
  unfold rateUsed, orDefault.
  destruct configured as [q|]; [|now intros ->].
  intros [Hnz ->].
  destruct (Qeq_bool q 0) eqn:E; [|reflexivity].
  apply Qeq_bool_eq in E. contradiction.
Qed.

Lemma calculateTotals_total (cart : Cart) (settings : option AppSettings) :
  let t := calculateTotals cart settings in
  (t_total t == t_subtotal t + t_cgst t + t_sgst t)%Q.
Proof. simpl. reflexivity. Qed.

(** Where each rate is unset or not zero, calculateTotals returns the sum
    of the line subtotals as subtotal, subtotal x rate1 / 100 and
    subtotal x rate2 / 100 as the two taxes, and subtotal + tax1 + tax2
    as total, a rate being the configured one when it is set and 2.5
    when it is unset.  With both rates 2.5 and a subtotal of 1000 the
    taxes are 25 and 25 and the total is 1050. *)
Lemma calculateTotals_formulas
    (cart : Cart) (settings : option AppSettings) (rate1 rate2 : Q) :
  rateUsed (optField cgstRate settings) rate1 ->
  rateUsed (optField sgstRate settings) rate2 ->
  let t := calculateTotals cart settings in
  (t_subtotal t == sumQ (map subtotal cart)
   /\ t_cgst t == t_subtotal t * rate1 / 100
   /\ t_sgst t == t_subtotal t * rate2 / 100
   /\ t_total t == t_subtotal t + t_cgst t + t_sgst t
   /\ (rate1 == 2.5 -> rate2 == 2.5 -> sumQ (map subtotal cart) == 1000 ->
       t_cgst t == 25 /\ t_sgst t == 25 /\ t_total t == 1050))%Q.
Proof.
  intros H1 H2 t.
  pose proof (calculateTotals_subtotal cart settings) as Hsub.
  apply orDefault_rateUsed in H1, H2.
  assert (Hc : (t_cgst t == t_subtotal t * rate1 / 100)%Q).
  { subst t; unfold calculateTotals; simpl. now rewrite H1. }
  assert (Hs : (t_sgst t == t_subtotal t * rate2 / 100)%Q).
  { subst t; unfold calculateTotals; simpl. now rewrite H2. }
  pose proof (calculateTotals_total cart settings) as Ht.
  fold t in Hsub, Ht. cbv zeta in Ht.
  do 4 (split; [assumption|]).
  intros E1 E2 E1000.
  assert (Hc25 : (t_cgst t == 25)%Q).
  { rewrite Hc, Hsub, E1000, E1. reflexivity. }
  assert (Hs25 : (t_sgst t == 25)%Q).
  { rewrite Hs, Hsub, E1000, E2. reflexivity. }
  do 2 (split; [assumption|]).
  rewrite Ht, Hc25, Hs25, Hsub, E1000. reflexivity.
Qed.

Lemma calculateTotals_formulas_witness :
  let t := calculateTotals sampleCart
             (Some (sampleSettings (Some 2.5%Q) (Some 2.5%Q))) in
  (t_subtotal t == sumQ (map subtotal sampleCart)
   /\ t_cgst t == t_subtotal t * 2.5 / 100
   /\ t_sgst t == t_subtotal t * 2.5 / 100
   /\ t_total t == t_subtotal t + t_cgst t + t_sgst t
   /\ (2.5 == 2.5 -> 2.5 == 2.5 -> sumQ (map subtotal sampleCart) == 1000 ->
       t_cgst t == 25 /\ t_sgst t == 25 /\ t_total t == 1050))%Q.
Proof.
  apply (calculateTotals_formulas sampleCart
           (Some (sampleSettings (Some 2.5%Q) (Some 2.5%Q))) 2.5%Q 2.5%Q);
    simpl; split; [discriminate | reflexivity | discriminate | reflexivity].
Defined.

Example calculateTotals_1000 :
  let t := calculateTotals sampleCart
             (Some (sampleSettings (Some 2.5%Q) (Some 2.5%Q))) in
  (t_subtotal t == 1000 /\ t_cgst t == 25 /\ t_sgst t == 25
   /\ t_total t == 1050)%Q.
Proof. repeat split. Qed.

Example calculateTotals_unset :
  let t := calculateTotals sampleCart None in
  (t_cgst t == 25 /\ t_sgst t == 25 /\ t_total t == 1050)%Q.
Proof. repeat split. Qed.

(** C3.  With a configured cgst rate of 0 and a subtotal of 1000,
    calculateTotals returns a cgst of 25, the tax at the default 2.5,
    where subtotal x rate1 / 100 is 0: [settings?.cgstRate || 2.5] takes
    the configured zero for an unset rate, while the receipt prints the
    configured rate itself. *)
Theorem calculateTotals_zero_rate :
  let t := calculateTotals sampleCart
             (Some (sampleSettings (Some 0%Q) (Some 2.5%Q))) in
  (t_subtotal t == 1000 /\ t_cgst t == 25
   /\ ~ t_cgst t == t_subtotal t * 0 / 100)%Q.
Proof.
  simpl. split; [reflexivity|]. split; [reflexivity|]. discriminate.
Qed.

End Totals.

(* ================================================================== *)
(** ** Saving a bill *)
(* ================================================================== *)

Section SaveBill.

Import Billing.

Variables (shouldPrint : bool) (now : Z) (nowIso : string).

Lemma skipn_length_app {A : Type} (xs ys : list A) :
  skipn (List.length xs) (xs ++ ys) = ys.
Proof. induction xs as [|x xs IH]; simpl; [reflexivity | exact IH]. Qed.

Lemma newEffects_extends (st st' : State) (es : list Effect) :
  st_effects st' = (st_effects st ++ es)%list -> newEffects st st' = es.
Proof. unfold newEffects. intros ->. apply skipn_length_app. Qed.

Lemma getLastBillNumber_resolves (s : Db.store) :
  exists n, Db.getLastBillNumber s = Db.Resolved n.
Proof.
  unfold Db.getLastBillNumber, Db.getAllBills.
  destruct s as [|first rest]; eexists; reflexivity.
Qed.

Lemma handleSaveBill_empty (st : State) :
  st_cart st = [] ->
  handleSaveBill shouldPrint now nowIso st = emit [toast emptyCartToast] st.
Proof. unfold handleSaveBill. now intros ->. Qed.

Lemma handleSaveBill_missing (st : State) :
  st_cart st <> [] ->
  st_user st = None \/ st_settings st = None ->
  handleSaveBill shouldPrint now nowIso st
  = emit [toast missingContextToast] st.
Proof.
  unfold handleSaveBill. intros Hcart Hctx.
  destruct (st_cart st) as [|l cart]; [congruence|]. simpl.
  destruct Hctx as [-> | ->]; [reflexivity|].
  now destruct (st_user st).
Qed.

(** What a call with a non-empty cart, a user and settings does. *)
Lemma handleSaveBill_attempt (st : State) (user : User)
    (settings : AppSettings) :
  st_cart st <> [] ->
  st_user st = Some user ->
  st_settings st = Some settings ->
  exists billNumber,
    Db.getLastBillNumber (st_bills st) = Db.Resolved billNumber
    /\ let bill :=
         newBill now nowIso billNumber
           (calculateTotals (st_cart st) (st_settings st)) user st in
       let st' := handleSaveBill shouldPrint now nowIso st in
       (Db.has_key (id bill) (st_bills st) = true ->
        st_bills st' = st_bills st
        /\ st_cart st' = st_cart st
        /\ newEffects st st'
           = [call_getLastBillNumber; call_createBill bill;
              console_error "Failed to save bill:"; toast failedToast])
       /\ (Db.has_key (id bill) (st_bills st) = false ->
           st_bills st' = Db.insert bill (st_bills st)
           /\ st_cart st' = []
           /\ newEffects st st'
              = ([call_getLastBillNumber; call_createBill bill;
                  toast (savedToast billNumber)]
                 ++ if shouldPrint then [call_printBill bill settings]
                    else [])%list).
Proof.
  intros Hcart Huser Hsettings.
  destruct (getLastBillNumber_resolves (st_bills st)) as [n Hn].
  exists n. split; [exact Hn|].
  cbv zeta. unfold handleSaveBill.
  destruct (st_cart st) as [|l cart] eqn:Ecart; [congruence|].
  cbn [List.length Nat.eqb]. rewrite Huser, Hsettings.
  cbn [emit st_bills st_cart st_settings st_user st_effects].
  rewrite Hn, Ecart, Hsettings.
  unfold Db.createBill, Db.db_add.
  replace (newBill now nowIso n
             (calculateTotals (l :: cart) (Some settings)) user
             (emit [call_getLastBillNumber] st))
    with (newBill now nowIso n
            (calculateTotals (l :: cart) (Some settings)) user st)
    by reflexivity.
  set (bill := newBill now nowIso n _ user st).
  split; intros Hkey; rewrite Hkey.
  - split; [reflexivity|]. split; [simpl; congruence|].
    apply newEffects_extends. simpl. now rewrite <- !app_assoc.
  - split; [reflexivity|]. split; [reflexivity|].
    apply newEffects_extends. simpl. now rewrite <- !app_assoc.
Qed.

Lemma newBill_ok (billNumber : string) (user : User) (st : State) :
  billOk (newBill now nowIso billNumber
            (calculateTotals (st_cart st) (st_settings st)) user st).
Proof.
  split; simpl.
  - reflexivity.
  - rewrite fold_left_sumQ. apply Qplus_0_l.
Qed.

(** C6.  The Bill record that handleSaveBill builds and passes to
    createBill has total = subtotal + cgst + sgst, and a subtotal that is
    the sum of the subtotals of its lines, which are the lines of the
    cart. *)
Theorem handleSaveBill_bill_invariant (st : State) (b : Bill) :
  In (call_createBill b)
     (newEffects st (handleSaveBill shouldPrint now nowIso st)) ->
  billOk b /\ items b = st_cart st.
Proof.
  intros Hin.
  destruct (st_cart st) as [|l cart] eqn:Ecart.
  - rewrite handleSaveBill_empty in Hin by exact Ecart.
    rewrite (newEffects_extends st _ [toast emptyCartToast]) in Hin
      by reflexivity.
    simpl in Hin. destruct Hin as [Hin|[]]. discriminate.
  - assert (Hne : st_cart st <> []) by congruence.
    destruct (st_user st) as [user|] eqn:Euser;
      [destruct (st_settings st) as [settings|] eqn:Esettings|].
    + destruct (handleSaveBill_attempt st user settings Hne Euser Esettings)
        as [n [_ Hcases]].
      cbv zeta in Hcases. destruct Hcases as [Hdup Hfresh].
      set (bill := newBill now nowIso n
                     (calculateTotals (st_cart st) (st_settings st)) user st)
        in *.
      assert (Hb : b = bill).
      { destruct (Db.has_key (id bill) (st_bills st)) eqn:Ekey.
        - destruct (Hdup eq_refl) as [_ [_ Heff]]. rewrite Heff in Hin.
          simpl in Hin.
          destruct Hin as [H|[H|[H|[H|[]]]]]; congruence.
        - destruct (Hfresh eq_refl) as [_ [_ Heff]]. rewrite Heff in Hin.
          simpl in Hin.
          destruct Hin as [H|[H|[H|H]]]; try congruence.
          destruct shouldPrint; simpl in H;
            [destruct H as [H|[]]; discriminate | contradiction]. }
      subst b. split; [apply newBill_ok | now rewrite <- Ecart].
    + rewrite handleSaveBill_missing in Hin by auto.
      rewrite (newEffects_extends st _ [toast missingContextToast]) in Hin
        by reflexivity.
      simpl in Hin. destruct Hin as [Hin|[]]. discriminate.
    + rewrite handleSaveBill_missing in Hin by auto.
      rewrite (newEffects_extends st _ [toast missingContextToast]) in Hin
        by reflexivity.
      simpl in Hin. destruct Hin as [Hin|[]]. discriminate.
Qed.

(** C4.  With an empty cart, or with no user or no settings,
    handleSaveBill ends in a destructive toast, [Empty Cart] for the
    empty cart and [User or settings not found] otherwise, which is not
    the toast of a saved bill; it does not call createBill, and the
    bills and the cart are as before. *)
Theorem handleSaveBill_rejects (st : State) :
  st_cart st = [] \/ st_user st = None \/ st_settings st = None ->
  let st' := handleSaveBill shouldPrint now nowIso st in
  st_bills st' = st_bills st
  /\ st_cart st' = st_cart st
  /\ (forall b, ~ In (call_createBill b) (newEffects st st'))
  /\ exists t,
       newEffects st st' = [toast t]
       /\ variant t = destructive
       /\ (st_cart st = [] -> t = emptyCartToast)
       /\ (st_cart st <> [] -> t = missingContextToast)
       /\ (forall n, t <> savedToast n).
Proof.
  intros Hpre st'.
  assert (Hcases :
    (st_cart st = [] /\ st' = emit [toast emptyCartToast] st)
    \/ (st_cart st <> [] /\ st' = emit [toast missingContextToast] st)).
  { destruct (st_cart st) as [|l cart] eqn:Ecart.
    - left. split; [reflexivity|]. now apply handleSaveBill_empty.
    - right. split; [discriminate|].
      apply handleSaveBill_missing; [congruence|].
      destruct Hpre as [H|H]; [discriminate | exact H]. }
  destruct Hcases as [[Hc ->]|[Hc ->]].
  - repeat split.
    + intros b.
      rewrite (newEffects_extends st _ [toast emptyCartToast])
        by reflexivity.
      simpl. intros [H|[]]. discriminate.
    + exists emptyCartToast.
      rewrite (newEffects_extends st _ [toast emptyCartToast])
        by reflexivity.
      repeat split; try reflexivity; try congruence. discriminate.
  - repeat split.
    + intros b.
      rewrite (newEffects_extends st _ [toast missingContextToast])
        by reflexivity.
      simpl. intros [H|[]]. discriminate.
    + exists missingContextToast.
      rewrite (newEffects_extends st _ [toast missingContextToast])
        by reflexivity.
      repeat split; try reflexivity; try congruence. discriminate.
Qed.

End SaveBill.

(* ================================================================== *)
(** ** The sequencer *)
(* ================================================================== *)

Section Sequencer.

Import JS.

Lemma uint_of_string_cons (c : ascii) (rest : string) (d : Decimal.uint) :
  NilEmpty.uint_of_string (String c rest) = Some d ->
  exists d', NilEmpty.uint_of_string rest = Some d'
             /\ uint_of_char c (Some d') = Some d.
Proof.
  simpl. destruct (NilEmpty.uint_of_string rest) as [d'|].
  - intros H. now exists d'.
  - destruct c as [[|] [|] [|] [|] [|] [|] [|] [|]]; discriminate.
Qed.

Ltac digit_cases H :=
  apply uint_of_char_spec in H;
  destruct H as [[-> ->]|[[-> ->]|[[-> ->]|[[-> ->]|[[-> ->]|[[-> ->]|
                [[-> ->]|[[-> ->]|[[-> ->]|[-> ->]]]]]]]]]].

(** On a string of decimal digits, the digits [parseInt] reads are all
    of them, and their value is the number the numeral denotes. *)
Lemma radixDigits_decimal (ds : string) :
  forall (d : Decimal.uint) (acc : nat),
    NilEmpty.uint_of_string ds = Some d ->
    fold_left (fun a k => a * 10 + k) (radixDigits 10 ds) (Z.of_nat acc)
    = Z.of_nat (Nat.of_uint_acc d acc).
Proof.
  induction ds as [|c rest IH]; intros d acc Hd.
  - injection Hd as <-. reflexivity.
  - apply uint_of_string_cons in Hd as [d' [Hrest Hc]].
    digit_cases Hc;
      cbn [radixDigits digitValue]; simpl fold_left;
      cbn [Nat.of_uint_acc]; rewrite <- (IH d' _ Hrest); f_equal;
      rewrite Nat.tail_mul_spec; lia.
Qed.

Lemma radixDigits_nonempty (c : ascii) (rest : string) (d : Decimal.uint) :
  NilEmpty.uint_of_string (String c rest) = Some d ->
  radixDigits 10 (String c rest) <> [].
Proof.
  intros Hd. apply uint_of_string_cons in Hd as [d' [_ Hc]].
  digit_cases Hc; discriminate.
Qed.

(** Up to 2^53 every integer is a double. *)
Lemma roundDouble_exact (z : Z) :
  Z.abs z <= 2 ^ 53 -> roundDouble z = z.
Proof.
  intros Hz. unfold roundDouble.
  now rewrite (proj2 (Z.leb_le _ _) Hz).
Qed.

(** [parseInt] of a non-empty string of decimal digits. *)
Lemma parseInt_decimal (ds : string) (d : Decimal.uint) :
  ds <> "" ->
  NilEmpty.uint_of_string ds = Some d ->
  parseInt ds = Num (roundDouble (Z.of_nat (Nat.of_uint d))).
Proof.
  intros Hne Hd.
  destruct ds as [|c rest]; [congruence|].
  pose proof (radixDigits_decimal _ d 0%nat Hd) as Hval.
  pose proof (radixDigits_nonempty _ _ _ Hd) as Hdigits.
  assert (Hshape :
    parseInt (String c rest)
    = match radixDigits 10 (String c rest) with
      | [] => NaN
      | k :: ks => Num (roundDouble (1 * digitsValue 10 (k :: ks)))
      end).
  { apply uint_of_string_cons in Hd as [d' [Hrest Hc]].
    digit_cases Hc; try reflexivity.
    destruct rest as [|c2 rest2]; [reflexivity|].
    apply uint_of_string_cons in Hrest as [d2 [_ Hc2]].
    digit_cases Hc2; reflexivity. }
  rewrite Hshape.
  destruct (radixDigits 10 (String c rest)) as [|k ks] eqn:E;
    [congruence|].
  unfold digitsValue. rewrite Z.mul_1_l. do 2 f_equal. exact Hval.
Qed.

Lemma replace_BILL_prefix (ds : string) :
  replace "BILL" "" ("BILL" ++ ds) = ds.
Proof. simpl. now destruct ds. Qed.

Lemma last_snoc {A : Type} (xs : list A) (x d : A) :
  last (xs ++ [x])%list d = x.
Proof.
  induction xs as [|y xs IH]; [reflexivity|].
  simpl. destruct (xs ++ [x])%list eqn:E; [|exact IH].
  now destruct xs.
Qed.

(** The sequencer reads the last record of [getAll] and nothing else. *)
Lemma getLastBillNumber_last (bills : list Bill) (lastBill : Bill) :
  Db.getLastBillNumber (bills ++ [lastBill])%list
  = Db.Resolved
      ("BILL" ++ padStart 4 "0"
         (toString (add (parseInt (replace "BILL" "" (billNumber lastBill)))
                      1))).
Proof.
  unfold Db.getLastBillNumber, Db.getAllBills.
  destruct bills as [|first rest]; [reflexivity|].
  change ((first :: rest) ++ [lastBill])%list
    with (first :: (rest ++ [lastBill]))%list.
  cbv iota beta zeta. now rewrite last_snoc.
Qed.

(** C1.  On the empty bill collection getLastBillNumber resolves to
    BILL0000, which is not the seed BILL0001 of a sequence that starts
    at 1. *)
Theorem getLastBillNumber_empty_store :
  Db.getLastBillNumber [] = Db.Resolved "BILL0000"
  /\ Db.getLastBillNumber [] <> Db.Resolved "BILL0001".
Proof. split; [reflexivity | discriminate]. Qed.

(** C5, as amended.  When the last record that getAll lists (the record
    with the greatest id, the store being listed in ascending order of
    the ids) has the bill number BILL followed by the decimal digits of
    a number n below 2^53, getLastBillNumber resolves to BILL followed by
    n + 1 padded with zeros to 4 characters, whatever the records before
    it are. *)
Theorem getLastBillNumber_increments
    (bills : list Bill) (lastBill : Bill) (ds : string)
    (d : Decimal.uint) :
  billNumber lastBill = "BILL" ++ ds ->
  ds <> "" ->
  NilEmpty.uint_of_string ds = Some d ->
  Z.of_nat (Nat.of_uint d) < 2 ^ 53 ->
  Db.getLastBillNumber (bills ++ [lastBill])%list
  = Db.Resolved
      ("BILL" ++ padStart 4 "0"
                   (toString (Num (Z.of_nat (Nat.of_uint d) + 1)))).
Proof.
  intros Hnum Hne Hd Hsafe.
  rewrite getLastBillNumber_last, Hnum, replace_BILL_prefix.
  rewrite (parseInt_decimal ds d Hne Hd).
  assert (E53 : 2 ^ 53 = 9007199254740992) by reflexivity.
  rewrite E53 in Hsafe.
  cbn [add].
  rewrite (roundDouble_exact (Z.of_nat (Nat.of_uint d)))
    by (rewrite E53; lia).
  rewrite roundDouble_exact by (rewrite E53; lia). reflexivity.
Qed.


End Sequencer.

Section SequencerExamples.

Import JS.

Lemma cycle_zeros (k : nat) :
  cycle "0" "0" k = zeros k /\ cycle "0" "" k = zeros k.
Proof.
  induction k as [|k [IH1 IH2]]; [split; reflexivity|].
  split; simpl; now rewrite IH2.
Qed.

(** [padStart(n, '0')] puts zeros in front, up to [n] characters. *)
Lemma padStart_zero (n : nat) (s : string) :
  padStart n "0" s = (zeros (n - String.length s) ++ s)%string.
Proof.
  unfold padStart.
  destruct (Nat.leb_spec n (String.length s)) as [Hle|Hlt].
  - replace (n - String.length s)%nat with 0%nat by lia. reflexivity.
  - now rewrite (proj1 (cycle_zeros _)).
Qed.

Lemma getLastBillNumber_increments_witness :
  Db.getLastBillNumber
    ([sampleBill "bill-1" "BILL0042" "2024-03-15T10:00:00.000Z" [] 0 0 0 0]
     ++ [sampleBill "bill-2" "BILL0007" "2024-03-14T09:00:00.000Z" [] 0 0 0 0])%list
  = Db.Resolved "BILL0008".
Proof.
  apply (getLastBillNumber_increments
           [sampleBill "bill-1" "BILL0042" "2024-03-15T10:00:00.000Z" [] 0 0 0 0]
           (sampleBill "bill-2" "BILL0007" "2024-03-14T09:00:00.000Z" [] 0 0 0 0)
           "0007" (Decimal.D0 (Decimal.D0 (Decimal.D0 (Decimal.D7 Decimal.Nil)))));
    [reflexivity | discriminate | reflexivity | reflexivity].
Defined.

(** C5, as stated, fails twice.  The store lists its bills by id, not
    by insertion: when the clock was set back between two saves, the bill
    inserted last (BILL0008) is listed first and the sequencer answers
    BILL0008 again, from the bill listed last (BILL0007), not BILL0009.
    And numbers are doubles: after BILL9007199254740992, which is 2^53,
    the sequencer answers the same number, not BILL9007199254740993. *)
Lemma getLastBillNumber_order_and_precision_counterexample :
  let later := sampleBill "bill-1710496800000" "BILL0007"
                 "2024-03-15T10:00:00.000Z" [] 0 0 0 0 in
  let earlier := sampleBill "bill-1710496799000" "BILL0008"
                   "2024-03-15T09:59:59.000Z" [] 0 0 0 0 in
  let big := sampleBill "bill-1710496800000" "BILL9007199254740992"
               "2024-03-15T10:00:00.000Z" [] 0 0 0 0 in
  match Db.createBill later [] with
  | Db.Resolved s1 =>
      match Db.createBill earlier s1 with
      | Db.Resolved s2 =>
          Db.getAllBills s2 = [earlier; later]
          /\ Db.getLastBillNumber s2 = Db.Resolved "BILL0008"
          /\ Db.getLastBillNumber s2 <> Db.Resolved "BILL0009"
      | Db.Rejected _ => False
      end
  | Db.Rejected _ => False
  end
  /\ Db.getLastBillNumber [big] = Db.Resolved "BILL9007199254740992"
  /\ Db.getLastBillNumber [big] <> Db.Resolved "BILL9007199254740993".
Proof.
  vm_compute. repeat split; discriminate.
Qed.

(** Beyond 2^53 a sum is rounded to the nearest double, ties to even. *)
Example roundDouble_beyond_2_53 :
  roundDouble (2 ^ 53 + 1) = 2 ^ 53
  /\ roundDouble (2 ^ 53 + 2) = 2 ^ 53 + 2
  /\ roundDouble (2 ^ 53 + 3) = 2 ^ 53 + 4
  /\ roundDouble (- (2 ^ 53 + 1)) = - 2 ^ 53
  /\ roundDouble (2 ^ 60 + 129) = 2 ^ 60 + 256.
Proof. repeat split. Qed.

Example getLastBillNumber_BILL0007 :
  Db.getLastBillNumber
    [sampleBill "bill-1" "BILL0007" "2024-03-15T10:00:00.000Z" [] 0 0 0 0]
  = Db.Resolved "BILL0008".
Proof. reflexivity. Qed.

(** Past 9999 the number simply grows to five digits. *)
Example getLastBillNumber_BILL9999 :
  Db.getLastBillNumber
    [sampleBill "bill-1" "BILL9999" "2024-03-15T10:00:00.000Z" [] 0 0 0 0]
  = Db.Resolved "BILL10000".
Proof. reflexivity. Qed.



(** A string that starts with a character that is neither white space,
    nor a sign, nor a digit or letter holds no number for [parseInt]. *)
Lemma parseInt_no_number (c : ascii) (rest : string) :
  isWhiteSpace c = false -> digitValue c = None ->
  c <> "-"%char -> c <> "+"%char ->
  parseInt (String c rest) = NaN.
Proof.
  intros Hws Hdigit Hminus Hplus.
  destruct c as [[|] [|] [|] [|] [|] [|] [|] [|]];
    try discriminate Hws; try discriminate Hdigit;
    try (exfalso; apply Hminus; reflexivity);
    try (exfalso; apply Hplus; reflexivity);
    reflexivity.
Qed.

(** The sequencer never rejects. *)
Lemma getLastBillNumber_never_rejects (s : Db.store) :
  isRejected (Db.getLastBillNumber s) = false.
Proof.
  unfold Db.getLastBillNumber, Db.getAllBills. now destruct s.
Qed.

End SequencerExamples.

(* ================================================================== *)
(** ** updateBill *)
(* ================================================================== *)

Section UpdateBill.

Lemma db_get_replace (b : Bill) (s : Db.store) (k : string) :
  Db.has_key (id b) s = true ->
  Db.db_get k (Db.replace b s)
  = if String.eqb k (id b) then Some b else Db.db_get k s.
Proof.
  unfold Db.db_get, Db.has_key.
  induction s as [|x rest IH]; simpl; [discriminate|].
  destruct (String.eqb_spec (id x) (id b)) as [Exb|Exb]; simpl.
  - intros _. rewrite Exb, (String.eqb_sym (id b) k).
    now destruct (String.eqb k (id b)).
  - intros Hkey. destruct (String.eqb_spec (id x) k) as [Exk|Exk].
    + destruct (String.eqb_spec k (id b)); [congruence | reflexivity].
    + now apply IH.
Qed.

Lemma db_get_insert (b : Bill) (s : Db.store) (k : string) :
  Db.has_key (id b) s = false ->
  Db.db_get k (Db.insert b s)
  = if String.eqb k (id b) then Some b else Db.db_get k s.
Proof.
  unfold Db.db_get, Db.has_key.
  induction s as [|x rest IH]; simpl.
  - intros _. rewrite (String.eqb_sym (id b) k).
    now destruct (String.eqb k (id b)).
  - destruct (String.eqb_spec (id x) (id b)) as [Exb|Exb]; simpl;
      [discriminate|].
    intros Hkey. destruct (String.ltb (id b) (id x)); simpl.
    + rewrite (String.eqb_sym (id b) k).
      now destruct (String.eqb k (id b)).
    + destruct (String.eqb_spec (id x) k) as [Exk|Exk].
      * destruct (String.eqb_spec k (id b)); [congruence | reflexivity].
      * now apply IH.
Qed.

Lemma db_get_put (b : Bill) (s : Db.store) (k : string) :
  Db.db_get k (Db.db_put b s)
  = if String.eqb k (id b) then Some b else Db.db_get k s.
Proof.
  unfold Db.db_put.
  destruct (Db.has_key (id b) s) eqn:Ekey.
  - now apply db_get_replace.
  - now apply db_get_insert.
Qed.

(** C9, as amended.  updateBill stores the record it is given, whole: the
    bill read back under that id is the record passed, monetary fields
    included, and the bills under other ids are as before. *)
Theorem updateBill_replaces_record (b : Bill) (s : Db.store) (k : string) :
  Db.getBill k (Db.updateBill b s)
  = if String.eqb k (id b) then Some b else Db.getBill k s.
Proof. apply db_get_put. Qed.

(** C9, as stated, fails: updateBill with a record that carries other
    amounts changes the stored subtotal, cgst, sgst and total. *)
Lemma updateBill_changes_total_counterexample :
  let stored :=
    sampleBill "bill-1" "BILL0001" "2024-03-15T10:00:00.000Z" sampleCart
      1000 25 25 1050 in
  let passed :=
    sampleBill "bill-1" "BILL0001" "2024-03-15T10:00:00.000Z" sampleCart
      1 0 0 1 in
  option_map total (Db.getBill "bill-1" [stored]) = Some 1050%Q
  /\ option_map total (Db.getBill "bill-1" (Db.updateBill passed [stored]))
     = Some 1%Q
  /\ option_map bill_subtotal
       (Db.getBill "bill-1" (Db.updateBill passed [stored]))
     = Some 1%Q
  /\ ~ (1 == 1050)%Q.
Proof. repeat split. discriminate. Qed.

(** A record that only differs in the sync flag keeps the amounts. *)
Lemma updateBill_sync_flag (b : Bill) (s : Db.store) :
  let synced :=
    mkBill (id b) (billNumber b) (items b) (bill_subtotal b) (cgst b)
      (sgst b) (total b) (createdBy b) (createdByName b) (createdAt b)
      (paymentMethod b) (customerName b) (customerPhone b) true in
  Db.getBill (id b) (Db.updateBill synced s) = Some synced
  /\ total synced = total b /\ bill_subtotal synced = bill_subtotal b
  /\ cgst synced = cgst b /\ sgst synced = sgst b.
Proof.
  intros synced. split; [|repeat split].
  unfold Db.getBill, Db.updateBill. rewrite db_get_put. simpl.
  now rewrite String.eqb_refl.
Qed.

End UpdateBill.

(* ================================================================== *)
(** ** The report summary *)
(* ================================================================== *)

Section Summary.

Import Reports.

Lemma fold_left_sumZ {A : Type} (f : A -> Z) (xs : list A) :
  forall a : Z,
    fold_left (fun sum x => (sum + f x)%Z) xs a = (a + sumZ (map f xs))%Z.
Proof.
  induction xs as [|x xs IH]; intros a; simpl.
  - lia.
  - rewrite IH. lia.
Qed.

(** C10.  The summary of the filtered bills: total sales is the sum of
    the bill totals, the bill count is the length of the list, the
    average is total sales divided by the count and 0 for no bills, and
    the item count is the sum over the bills of the number of their
    lines; for no bills all four are 0. *)
Theorem summary_values (filteredBills : list Bill) :
  (totalSales filteredBills == sumQ (map total filteredBills))%Q
  /\ billCount filteredBills = Z.of_nat (List.length filteredBills)
  /\ (avgBillValue filteredBills
      == match filteredBills with
         | [] => 0
         | _ :: _ =>
             sumQ (map total filteredBills)
             / inject_Z (Z.of_nat (List.length filteredBills))
         end)%Q
  /\ totalItems filteredBills
     = sumZ (map (fun b => Z.of_nat (List.length (items b))) filteredBills)
  /\ (totalSales [] == 0)%Q /\ billCount [] = 0%Z
  /\ (avgBillValue [] == 0)%Q /\ totalItems [] = 0%Z.
Proof.
  assert (Hsales : (totalSales filteredBills
                    == sumQ (map total filteredBills))%Q).
  { unfold totalSales. rewrite fold_left_sumQ. apply Qplus_0_l. }
  split; [exact Hsales|]. split; [reflexivity|]. split.
  - unfold avgBillValue, billCount.
    destruct filteredBills as [|b rest]; [reflexivity|].
    destruct (Z.ltb_spec 0 (Z.of_nat (List.length (b :: rest))))
      as [Hpos|Hnpos]; [|simpl List.length in Hnpos; lia].
    now rewrite Hsales.
  - split; [|repeat split].
    unfold totalItems. now rewrite fold_left_sumZ.
Qed.

(** Lines are counted, not quantities: one bill with three lines and six
    units in all counts for three items. *)
Example totalItems_counts_lines :
  totalItems
    [sampleBill "bill-1" "BILL0001" "2024-03-15T10:00:00.000Z" sampleCart
       1000 25 25 1050] = 3%Z
  /\ sumZ (map quantity sampleCart) = 6%Z.
Proof. split; reflexivity. Qed.

End Summary.

(* ================================================================== *)
(** ** Saving a bill, on sample data *)
(* ================================================================== *)

Section SaveBillExamples.

Import Billing.

Lemma handleSaveBill_rejects_witness :
  let st := sampleState [] (Some sampleUser)
              (Some (sampleSettings (Some 2.5%Q) (Some 2.5%Q))) [] in
  let st' := handleSaveBill true 1710496800000 "2024-03-15T10:00:00.000Z" st in
  st_bills st' = st_bills st
  /\ st_cart st' = st_cart st
  /\ (forall b, ~ In (call_createBill b) (newEffects st st'))
  /\ exists t,
       newEffects st st' = [toast t]
       /\ variant t = destructive
       /\ (st_cart st = [] -> t = emptyCartToast)
       /\ (st_cart st <> [] -> t = missingContextToast)
       /\ (forall n, t <> savedToast n).
Proof.
  intros st.
  apply (handleSaveBill_rejects true 1710496800000
           "2024-03-15T10:00:00.000Z" st).
  left. reflexivity.
Defined.

Lemma handleSaveBill_bill_invariant_witness :
  let st := sampleState sampleCart (Some sampleUser)
              (Some (sampleSettings (Some 2.5%Q) (Some 2.5%Q))) [] in
  let b := newBill 1710496800000 "2024-03-15T10:00:00.000Z" "BILL0000"
             (calculateTotals sampleCart (st_settings st)) sampleUser st in
  billOk b /\ items b = st_cart st.
Proof.
  intros st b.
  apply (handleSaveBill_bill_invariant false 1710496800000
           "2024-03-15T10:00:00.000Z" st b).
  right. left. reflexivity.
Defined.

(** The page's first bill on a new installation. *)
Example handleSaveBill_first_bill :
  let st := sampleState sampleCart (Some sampleUser)
              (Some (sampleSettings (Some 2.5%Q) (Some 2.5%Q))) [] in
  let st' := handleSaveBill false 1710496800000 "2024-03-15T10:00:00.000Z" st in
  map billNumber (st_bills st') = ["BILL0000"]
  /\ map id (st_bills st') = ["bill-1710496800000"]
  /\ st_cart st' = [].
Proof. repeat split. Qed.

Lemma toasts_distinct :
  emptyCartToast <> missingContextToast
  /\ emptyCartToast <> failedToast
  /\ missingContextToast <> failedToast
  /\ forall n, savedToast n <> emptyCartToast
               /\ savedToast n <> missingContextToast
               /\ savedToast n <> failedToast.
Proof. repeat split; discriminate. Qed.

End SaveBillExamples.

(* ================================================================== *)
(** ** The cart: how the operations compose *)
(* ================================================================== *)

Section CartComposition.

Import Billing.
#[local] Open Scope list_scope.

(** Any cart the three operations build holds at most one line per menu
    item. *)
Theorem cart_one_line_per_item (ops : list CartOp) :
  NoDup (map menuItemId (runOps ops)).
Proof. exact (runOps_distinct ops). Qed.

(** On a cart the operations built, a decrement that would bring a line to
    zero or less changes nothing in the whole cart. *)
Theorem rejected_decrement_keeps_cart
    (ops : list CartOp) (k : string) (delta : Z) (l : BillItem) :
  In l (runOps ops) -> menuItemId l = k -> (quantity l + delta <= 0)%Z ->
  updateQuantity k delta (runOps ops) = runOps ops.
Proof.
  intros Hin Hid Hle.
  apply (updateQuantity_rejected_whole_cart _ k delta l);
    [apply runOps_distinct | exact Hin | exact Hid | exact Hle].
Qed.

Lemma find_none_untouched (k : string) (g : BillItem -> BillItem)
    (cart : Cart) :
  find (sameItem k) cart = None ->
  map (fun c => if sameItem k c then g c else c) cart = cart.
Proof.
  intros Hnone. rewrite <- (map_id cart) at 2. apply map_ext_in.
  intros c Hc. now rewrite (find_none _ _ Hnone c Hc).
Qed.

Lemma find_app_none {A : Type} (p : A -> bool) (xs ys : list A) :
  find p xs = None -> find p (xs ++ ys) = find p ys.
Proof.
  induction xs as [|x xs IH]; simpl; [reflexivity|].
  destruct (p x); [discriminate | exact IH].
Qed.

Lemma find_removeFromCart (k : string) (cart : Cart) :
  find (sameItem k) (removeFromCart k cart) = None.
Proof.
  unfold removeFromCart.
  induction cart as [|c cart IH]; simpl; [reflexivity|].
  destruct (sameItem k c) eqn:E; simpl; [exact IH|].
  now rewrite E.
Qed.

Lemma removeFromCart_absent (k : string) (cart : Cart) :
  find (sameItem k) cart = None -> removeFromCart k cart = cart.
Proof.
  unfold removeFromCart.
  induction cart as [|c cart IH]; simpl; [reflexivity|].
  destruct (sameItem k c); simpl; [discriminate|].
  intros H. now rewrite IH.
Qed.

(** Removing an item forgets its quantity: adding it again after the
    removal appends a fresh line with quantity 1 at the item's current
    name and price. *)
Theorem add_after_remove_starts_at_one (item : MenuItem) (cart : Cart) :
  addToCart item (removeFromCart (mi_id item) cart)
  = (removeFromCart (mi_id item) cart
     ++ [mkBillItem (mi_id item) (mi_name item) (mi_price item) 1
           (mi_price item)])%list.
Proof.
  unfold addToCart. now rewrite find_removeFromCart.
Qed.

(** Adding an item the cart does not hold and removing it again gives the
    cart back. *)
Theorem remove_after_add_restores (item : MenuItem) (cart : Cart) :
  find (sameItem (mi_id item)) cart = None ->
  removeFromCart (mi_id item) (addToCart item cart) = cart.
Proof.
  intros Hnone. unfold addToCart. rewrite Hnone.
  unfold removeFromCart. rewrite filter_app. simpl.
  unfold sameItem at 2. simpl. rewrite String.eqb_refl. simpl.
  rewrite app_nil_r. now apply removeFromCart_absent.
Qed.

Lemma remove_after_add_restores_witness :
  removeFromCart "menu-1"
    (addToCart (mkMenuItem "menu-1" "Veg Manchurian" 150 "Starters" true)
       sampleCart)
  = sampleCart.
Proof.
  apply (remove_after_add_restores
           (mkMenuItem "menu-1" "Veg Manchurian" 150 "Starters" true)
           sampleCart).
  reflexivity.
Defined.

Lemma rejected_decrement_keeps_cart_witness :
  let item := mkMenuItem "menu-1" "Veg Manchurian" 150 "Starters" true in
  updateQuantity "menu-1" (-1) (runOps [addItem item])
  = runOps [addItem item].
Proof.
  intros item.
  apply (rejected_decrement_keeps_cart [addItem item] "menu-1" (-1)
           (mkBillItem "menu-1" "Veg Manchurian" 150 1 150));
    [left; reflexivity | reflexivity | simpl; lia].
Defined.

Lemma addToCart_existing_last (item : MenuItem) (cart : Cart) (l : BillItem) :
  find (sameItem (mi_id item)) cart = None ->
  menuItemId l = mi_id item ->
  addToCart item (cart ++ [l])
  = (cart ++ [mkBillItem (menuItemId l) (name l) (price l) (quantity l + 1)
                (inject_Z (quantity l + 1) * price l)%Q])%list.
Proof.
  intros Hnone Hid. unfold addToCart.
  assert (Hl : sameItem (mi_id item) l = true).
  { unfold sameItem. rewrite Hid. apply String.eqb_refl. }
  rewrite (find_app_none _ _ _ Hnone). simpl. rewrite Hl.
  rewrite map_app. simpl. rewrite Hl.
  now rewrite (find_none_untouched _ _ _ Hnone).
Qed.

(** Pressing an item n+1 times, starting from a cart that does not hold
    it, leaves the cart followed by one line for the item, with quantity
    n+1, the item's price, and a subtotal of n+1 times the price. *)
Theorem addToCart_repeated (item : MenuItem) (cart : Cart) (n : nat) :
  find (sameItem (mi_id item)) cart = None ->
  exists l,
    Nat.iter (S n) (addToCart item) cart = (cart ++ [l])%list
    /\ menuItemId l = mi_id item /\ name l = mi_name item
    /\ price l = mi_price item
    /\ quantity l = Z.of_nat (S n)
    /\ (subtotal l == inject_Z (Z.of_nat (S n)) * mi_price item)%Q.
Proof.
  intros Hnone. induction n as [|n [l [Hiter [Hid [Hname [Hprice [Hq Hsub]]]]]]].
  - eexists. split.
    + simpl. unfold addToCart. rewrite Hnone. reflexivity.
    + simpl. repeat split. now rewrite Qmult_1_l.
  - eexists. split.
    + change (Nat.iter (S (S n)) (addToCart item) cart)
        with (addToCart item (Nat.iter (S n) (addToCart item) cart)).
      rewrite Hiter. now apply addToCart_existing_last.
    + simpl menuItemId. simpl name. simpl price. simpl quantity.
      simpl subtotal. rewrite Hprice, Hq.
      repeat split; try assumption.
      * lia.
      * replace (Z.of_nat (S n) + 1)%Z with (Z.of_nat (S (S n))) by lia.
        reflexivity.
Qed.

Lemma addToCart_repeated_witness :
  exists l,
    Nat.iter 3 (addToCart (mkMenuItem "menu-6" "Gulab Jamun" 80 "Desserts" true))
      sampleCart = (sampleCart ++ [l])%list
    /\ menuItemId l = "menu-6" /\ name l = "Gulab Jamun"
    /\ price l = 80%Q
    /\ quantity l = 3%Z
    /\ (subtotal l == inject_Z 3 * 80)%Q.
Proof.
  apply (addToCart_repeated
           (mkMenuItem "menu-6" "Gulab Jamun" 80 "Desserts" true)
           sampleCart 2).
  reflexivity.
Defined.

(** Two quantity changes that are both accepted on every line of the item
    amount to one change by the sum of the deltas. *)
Theorem updateQuantity_compose
    (cart : Cart) (k : string) (d1 d2 : Z) :
  (forall l, In l cart -> menuItemId l = k ->
             (0 < quantity l + d1 /\ 0 < quantity l + d1 + d2)%Z) ->
  updateQuantity k d2 (updateQuantity k d1 cart)
  = updateQuantity k (d1 + d2) cart.
Proof.
  intros Hacc. unfold updateQuantity. rewrite map_map.
  apply map_ext_in. intros l Hl.
  destruct (sameItem k l) eqn:E; [|now rewrite E].
  assert (Hid : menuItemId l = k) by (now apply String.eqb_eq).
  destruct (Hacc l Hl Hid) as [H1 H2]. cbv zeta.
  destruct (Z.leb_spec (quantity l + d1) 0) as [?|_]; [lia|].
  unfold sameItem in *. simpl. rewrite E.
  destruct (Z.leb_spec (quantity l + d1 + d2) 0) as [?|_]; [lia|].
  destruct (Z.leb_spec (quantity l + (d1 + d2)) 0) as [?|_]; [lia|].
  now rewrite Z.add_assoc.
Qed.

Lemma updateQuantity_compose_witness :
  updateQuantity "menu-2" (-1) (updateQuantity "menu-2" 2 sampleCart)
  = updateQuantity "menu-2" (2 + -1) sampleCart.
Proof.
  apply (updateQuantity_compose sampleCart "menu-2" 2 (-1)).
  intros l [<-|[<-|[<-|[]]]]; simpl; intros H; try discriminate H; lia.
Defined.

End CartComposition.

(* ================================================================== *)
(** ** The totals of a cart under construction *)
(* ================================================================== *)

Section CartTotals.

Import Billing.
#[local] Open Scope list_scope.

Lemma runOps_lineOk (ops : list CartOp) : Forall lineOk (runOps ops).
Proof. unfold runOps. apply fold_applyOp_lineOk. constructor. Qed.

Lemma applyOp_nonneg_price (cart : Cart) (op : CartOp) :
  match op with addItem item => (0 <= mi_price item)%Q | _ => True end ->
  Forall (fun l => (0 <= price l)%Q) cart ->
  Forall (fun l => (0 <= price l)%Q) (applyOp cart op).
Proof.
  intros Hop Hcart. rewrite Forall_forall in *.
  destruct op as [item|k delta|k]; simpl.
  - unfold addToCart.
    destruct (find (sameItem (mi_id item)) cart).
    + intros l Hl. apply in_map_iff in Hl as [c [<- Hc]].
      destruct (sameItem (mi_id item) c); simpl; now apply Hcart.
    + intros l Hl. apply in_app_or in Hl as [Hl|[<-|[]]];
        [now apply Hcart | exact Hop].
  - unfold updateQuantity.
    intros l Hl. apply in_map_iff in Hl as [c [<- Hc]].
    destruct (sameItem k c); [|now apply Hcart].
    cbv zeta. destruct (quantity c + delta <=? 0)%Z; simpl; now apply Hcart.
  - unfold removeFromCart.
    intros l Hl. apply filter_In in Hl as [Hl _]. now apply Hcart.
Qed.

Lemma runOps_nonneg_price (ops : list CartOp) :
  addsNonnegPrices ops ->
  Forall (fun l => (0 <= price l)%Q) (runOps ops).
Proof.
  unfold runOps, addsNonnegPrices.
  assert (H : forall cart,
             Forall (fun op => match op with
                               | addItem item => (0 <= mi_price item)%Q
                               | _ => True
                               end) ops ->
             Forall (fun l => (0 <= price l)%Q) cart ->
             Forall (fun l => (0 <= price l)%Q) (fold_left applyOp ops cart)).
  { induction ops as [|op ops IH]; intros cart Hops Hcart; simpl;
      [exact Hcart|].
    inversion Hops; subst. apply IH; [assumption|].
    now apply applyOp_nonneg_price. }
  intros Hops. apply H; [exact Hops | constructor].
Qed.

Lemma sumQ_nonneg (xs : list Q) :
  Forall (fun x => (0 <= x)%Q) xs -> (0 <= sumQ xs)%Q.
Proof.
  induction 1 as [|x xs Hx _ IH]; simpl.
  - apply Qle_refl.
  - rewrite <- (Qplus_0_l 0). now apply Qplus_le_compat.
Qed.

Lemma orDefault_nonneg (configured : option Q) :
  (forall q, configured = Some q -> (0 <= q)%Q) ->
  (0 <= orDefault configured 2.5)%Q.
Proof.
  intros H. unfold orDefault. destruct configured as [q|]; [|discriminate].
  destruct (Qeq_bool q 0); [discriminate | now apply H].
Qed.

Lemma tax_nonneg (sub rate : Q) :
  (0 <= sub -> 0 <= rate -> 0 <= sub * rate / 100)%Q.
Proof.
  intros Hs Hr. unfold Qdiv.
  apply Qmult_le_0_compat; [now apply Qmult_le_0_compat | discriminate].
Qed.

(** When every item added has a price of zero or more and the configured
    rates are not negative, the subtotal and both taxes of a cart the
    operations built are zero or more, and the total is at least the
    subtotal. *)
Theorem totals_nonnegative
    (ops : list CartOp) (settings : option AppSettings) :
  addsNonnegPrices ops ->
  (forall q, optField cgstRate settings = Some q -> (0 <= q)%Q) ->
  (forall q, optField sgstRate settings = Some q -> (0 <= q)%Q) ->
  let t := calculateTotals (runOps ops) settings in
  (0 <= t_subtotal t /\ 0 <= t_cgst t /\ 0 <= t_sgst t
   /\ t_subtotal t <= t_total t)%Q.
Proof.
  intros Hops Hc Hs t.
  assert (Hsub : (0 <= t_subtotal t)%Q).
  { subst t. rewrite calculateTotals_subtotal. apply sumQ_nonneg.
    pose proof (runOps_nonneg_price ops Hops) as Hprice.
    pose proof (runOps_lineOk ops) as Hok.
    rewrite Forall_forall in *. intros x Hx.
    apply in_map_iff in Hx as [l [<- Hl]].
    destruct (Hok l Hl) as [Hq Heq]. rewrite Heq.
    apply Qmult_le_0_compat; [|now apply Hprice].
    change 0%Q with (inject_Z 0). rewrite <- Zle_Qle. lia. }
  assert (Hcg : (0 <= t_cgst t)%Q).
  { apply tax_nonneg; [exact Hsub | now apply orDefault_nonneg]. }
  assert (Hsg : (0 <= t_sgst t)%Q).
  { apply tax_nonneg; [exact Hsub | now apply orDefault_nonneg]. }
  repeat split; try assumption.
  change (t_total t) with (t_subtotal t + t_cgst t + t_sgst t)%Q.
  rewrite <- (Qplus_0_r (t_subtotal t)) at 1.
  rewrite <- Qplus_assoc. apply Qplus_le_compat; [apply Qle_refl|].
  rewrite <- (Qplus_0_l 0). now apply Qplus_le_compat.
Qed.

Lemma totals_nonnegative_witness :
  let ops := [addItem (mkMenuItem "menu-2" "Paneer Tikka" 200 "Starters" true);
              changeQuantity "menu-2" 2;
              addItem (mkMenuItem "menu-5" "Fresh Lime Soda" 60 "Beverages" true)] in
  let t := calculateTotals (runOps ops)
             (Some (sampleSettings (Some 2.5%Q) (Some 2.5%Q))) in
  (0 <= t_subtotal t /\ 0 <= t_cgst t /\ 0 <= t_sgst t
   /\ t_subtotal t <= t_total t)%Q.
Proof.
  intros ops.
  apply (totals_nonnegative ops
           (Some (sampleSettings (Some 2.5%Q) (Some 2.5%Q)))).
  - repeat constructor; discriminate.
  - simpl. intros q [= <-]. discriminate.
  - simpl. intros q [= <-]. discriminate.
Defined.

(** With no line in the cart the subtotal, both taxes and the total are
    zero, whatever the settings. *)
Theorem calculateTotals_empty_cart (settings : option AppSettings) :
  let t := calculateTotals [] settings in
  (t_subtotal t == 0 /\ t_cgst t == 0 /\ t_sgst t == 0 /\ t_total t == 0)%Q.
Proof.
  simpl. repeat split; try reflexivity; unfold Qdiv; ring.
Qed.

End CartTotals.

(* ================================================================== *)
(** ** Saving a bill: the two ways an attempt ends *)
(* ================================================================== *)

Section SaveBillOutcomes.

Import Billing.
#[local] Open Scope list_scope.

Variables (shouldPrint : bool) (now : Z) (nowIso : string).

Lemma length_insert (b : Bill) (s : Db.store) :
  List.length (Db.insert b s) = S (List.length s).
Proof.
  induction s as [|x s IH]; simpl; [reflexivity|].
  destruct (String.ltb (id b) (id x)); simpl; [reflexivity | now rewrite IH].
Qed.

Lemma getBill_none_has_key (k : string) (s : Db.store) :
  Db.getBill k s = None -> Db.has_key k s = false.
Proof.
  unfold Db.getBill, Db.db_get, Db.has_key. intros Hnone.
  apply not_true_is_false. intros Hex.
  apply existsb_exists in Hex as [x [Hx Hid]].
  now rewrite (find_none _ _ Hnone x Hx) in Hid.
Qed.

Lemma has_key_false_getBill (k : string) (s : Db.store) :
  Db.has_key k s = false -> Db.getBill k s = None.
Proof.
  unfold Db.has_key, Db.getBill, Db.db_get.
  induction s as [|x s IH]; simpl; [reflexivity|].
  destruct (String.eqb (id x) k); simpl; [discriminate | exact IH].
Qed.

(** The state after an attempt whose bill id is new, and after one whose
    bill id is taken. *)
Lemma handleSaveBill_attempt_state (st : State) (user : User)
    (settings : AppSettings) :
  st_cart st <> [] ->
  st_user st = Some user ->
  st_settings st = Some settings ->
  exists billNumber,
    Db.getLastBillNumber (st_bills st) = Db.Resolved billNumber
    /\ let bill :=
         newBill now nowIso billNumber
           (calculateTotals (st_cart st) (st_settings st)) user st in
       (Db.has_key (id bill) (st_bills st) = true ->
        handleSaveBill shouldPrint now nowIso st
        = mkState (st_cart st) (st_customerName st) (st_customerPhone st)
            (st_paymentMethod st) (st_settings st) (st_user st) (st_bills st)
            (st_effects st
               ++ [call_getLastBillNumber; call_createBill bill;
                   console_error "Failed to save bill:"; toast failedToast]))
       /\ (Db.has_key (id bill) (st_bills st) = false ->
           handleSaveBill shouldPrint now nowIso st
           = mkState [] "" "" cash (st_settings st) (st_user st)
               (Db.insert bill (st_bills st))
               (st_effects st
                  ++ [call_getLastBillNumber; call_createBill bill;
                      toast (savedToast billNumber)]
                  ++ if shouldPrint then [call_printBill bill settings]
                     else [])).
Proof.
  intros Hcart Huser Hsettings.
  destruct (getLastBillNumber_resolves (st_bills st)) as [n Hn].
  exists n. split; [exact Hn|].
  cbv zeta. unfold handleSaveBill.
  destruct (st_cart st) as [|l cart] eqn:Ecart; [congruence|].
  cbn [List.length Nat.eqb]. rewrite Huser, Hsettings.
  cbn [emit st_bills st_cart st_settings st_user st_effects].
  rewrite Hn, Ecart, Hsettings.
  unfold Db.createBill, Db.db_add.
  replace (newBill now nowIso n
             (calculateTotals (l :: cart) (Some settings)) user
             (emit [call_getLastBillNumber] st))
    with (newBill now nowIso n
            (calculateTotals (l :: cart) (Some settings)) user st)
    by reflexivity.
  set (bill := newBill now nowIso n _ user st).
  split; intros Hkey; rewrite Hkey.
  - unfold onError, emit. simpl. f_equal; try congruence.
    now rewrite <- !app_assoc.
  - simpl. f_equal; try congruence.
    now rewrite <- !app_assoc.
Qed.

(** A save that goes through: with lines in the cart, a user, settings
    and a bill id not yet in the store, the store gains exactly one bill,
    read back under its id while the others read as before; it carries
    the number the sequencer gave, the lines of the cart, the user, the
    payment method, the customer fields (absent when left empty) and is
    marked not synced; then the cart and the customer fields are emptied
    and the payment method is back to cash. *)
Theorem handleSaveBill_saves (st : State) (user : User)
    (settings : AppSettings) :
  st_cart st <> [] ->
  st_user st = Some user ->
  st_settings st = Some settings ->
  Db.getBill ("bill-" ++ JS.toString (JS.Num now))%string (st_bills st) = None ->
  let st' := handleSaveBill shouldPrint now nowIso st in
  exists b,
    (forall k,
       Db.getBill k (st_bills st')
       = if String.eqb k (id b) then Some b else Db.getBill k (st_bills st))
    /\ List.length (st_bills st') = S (List.length (st_bills st))
    /\ Db.getLastBillNumber (st_bills st) = Db.Resolved (billNumber b)
    /\ id b = ("bill-" ++ JS.toString (JS.Num now))%string
    /\ items b = st_cart st
    /\ createdBy b = user_id user /\ createdByName b = user_name user
    /\ createdAt b = nowIso
    /\ paymentMethod b = Some (st_paymentMethod st)
    /\ customerName b
       = (if String.eqb (st_customerName st) "" then None
          else Some (st_customerName st))
    /\ customerPhone b
       = (if String.eqb (st_customerPhone st) "" then None
          else Some (st_customerPhone st))
    /\ syncedToCloud b = false
    /\ st_cart st' = [] /\ st_customerName st' = ""%string
    /\ st_customerPhone st' = ""%string /\ st_paymentMethod st' = cash
    /\ In (toast (savedToast (billNumber b))) (newEffects st st').
Proof.
  intros Hcart Huser Hsettings Hfresh st'.
  destruct (handleSaveBill_attempt_state st user settings Hcart Huser Hsettings)
    as [n [Hn [_ Hok]]].
  pose proof (getBill_none_has_key _ _ Hfresh) as Hkey.
  specialize (Hok Hkey). subst st'. rewrite Hok.
  eexists. split.
  { intros k. cbn [st_bills]. unfold Db.getBill.
    apply db_get_insert. exact Hkey. }
  split; [cbn [st_bills]; apply length_insert|].
  split; [exact Hn|].
  repeat (split; [reflexivity|]).
  rewrite (newEffects_extends st _
             ([call_getLastBillNumber;
               call_createBill
                 (newBill now nowIso n
                    (calculateTotals (st_cart st) (st_settings st)) user st);
               toast (savedToast n)]
              ++ if shouldPrint
                 then [call_printBill
                         (newBill now nowIso n
                            (calculateTotals (st_cart st) (st_settings st))
                            user st) settings]
                 else [])) by reflexivity.
  simpl. right. right. now left.
Qed.

(** A save that fails in the store: when the bill id is already taken,
    the store, the cart, the customer fields and the payment method are
    all as before, the user is told [Failed to save bill], and nothing is
    printed. *)
Theorem handleSaveBill_id_taken (st : State) (user : User)
    (settings : AppSettings) (old : Bill) :
  st_cart st <> [] ->
  st_user st = Some user ->
  st_settings st = Some settings ->
  Db.getBill ("bill-" ++ JS.toString (JS.Num now))%string (st_bills st)
  = Some old ->
  let st' := handleSaveBill shouldPrint now nowIso st in
  st_bills st' = st_bills st
  /\ st_cart st' = st_cart st
  /\ st_customerName st' = st_customerName st
  /\ st_customerPhone st' = st_customerPhone st
  /\ st_paymentMethod st' = st_paymentMethod st
  /\ last (newEffects st st') (toast emptyCartToast) = toast failedToast
  /\ forall b s, ~ In (call_printBill b s) (newEffects st st').
Proof.
  intros Hcart Huser Hsettings Hold st'.
  destruct (handleSaveBill_attempt_state st user settings Hcart Huser Hsettings)
    as [n [Hn [Hdup _]]].
  assert (Hkey : Db.has_key ("bill-" ++ JS.toString (JS.Num now))%string
                   (st_bills st) = true).
  { unfold Db.getBill, Db.db_get in Hold. unfold Db.has_key.
    apply find_some in Hold as [Hin Hid].
    apply existsb_exists. now exists old. }
  specialize (Hdup Hkey). subst st'. rewrite Hdup.
  repeat (split; [reflexivity|]).
  rewrite (newEffects_extends st _
             [call_getLastBillNumber;
              call_createBill
                (newBill now nowIso n
                   (calculateTotals (st_cart st) (st_settings st)) user st);
              console_error "Failed to save bill:"; toast failedToast])
    by reflexivity.
  split; [reflexivity|].
  intros b s [H|[H|[H|[H|[]]]]]; discriminate.
Qed.

(** The four ways a call ends. *)
Lemma handleSaveBill_cases (st : State) :
  let st' := handleSaveBill shouldPrint now nowIso st in
  st' = emit [toast emptyCartToast] st
  \/ st' = emit [toast missingContextToast] st
  \/ (exists bill,
        st' = emit [call_getLastBillNumber; call_createBill bill;
                    console_error "Failed to save bill:"; toast failedToast]
                st)
  \/ (exists bill settings n,
        st_settings st = Some settings
        /\ Db.has_key (id bill) (st_bills st) = false
        /\ st' = mkState [] "" "" cash (st_settings st) (st_user st)
                   (Db.insert bill (st_bills st))
                   (st_effects st
                      ++ [call_getLastBillNumber; call_createBill bill;
                          toast (savedToast n)]
                      ++ if shouldPrint then [call_printBill bill settings]
                         else [])).
Proof.
  intros st'. subst st'.
  destruct (st_cart st) as [|l cart] eqn:Ecart.
  - left. now apply handleSaveBill_empty.
  - assert (Hne : st_cart st <> []) by congruence.
    destruct (st_user st) as [user|] eqn:Euser;
      [destruct (st_settings st) as [settings|] eqn:Esettings|].
    + destruct (handleSaveBill_attempt_state st user settings Hne Euser
                  Esettings) as [n [_ Hcases]].
      cbv zeta in Hcases. destruct Hcases as [Hdup Hfresh].
      match type of Hdup with
      | Db.has_key (id ?b) _ = true -> _ => set (bill := b) in *
      end.
      destruct (Db.has_key (id bill) (st_bills st)) eqn:Ekey.
      * right. right. left. exists bill.
        rewrite (Hdup eq_refl). unfold emit.
        now rewrite Ecart, Euser, Esettings.
      * right. right. right. exists bill, settings, n.
        split; [reflexivity|]. split; [exact Ekey|].
        rewrite (Hfresh eq_refl). now rewrite Euser, Esettings.
    + right. left. apply handleSaveBill_missing; auto.
    + right. left. apply handleSaveBill_missing; auto.
Qed.

(** A bill is sent to the printer only when printing was asked for, and
    only after that very bill was stored: it reads back under its id. *)
Theorem handleSaveBill_prints_stored_bill (st : State) (b : Bill)
    (s : AppSettings) :
  In (call_printBill b s)
     (newEffects st (handleSaveBill shouldPrint now nowIso st)) ->
  shouldPrint = true
  /\ st_settings st = Some s
  /\ Db.getBill (id b) (st_bills (handleSaveBill shouldPrint now nowIso st))
     = Some b.
Proof.
  intros Hin.
  destruct (handleSaveBill_cases st)
    as [H|[H|[[bill H]|[bill [s0 [n [Hs [Hkey H]]]]]]]];
    cbv zeta in H; rewrite H in Hin |- *.
  - rewrite (newEffects_extends st _ [toast emptyCartToast]) in Hin
      by reflexivity.
    destruct Hin as [Hin|[]]; discriminate.
  - rewrite (newEffects_extends st _ [toast missingContextToast]) in Hin
      by reflexivity.
    destruct Hin as [Hin|[]]; discriminate.
  - rewrite (newEffects_extends st _
               [call_getLastBillNumber; call_createBill bill;
                console_error "Failed to save bill:"; toast failedToast])
      in Hin by reflexivity.
    destruct Hin as [Hin|[Hin|[Hin|[Hin|[]]]]]; discriminate.
  - rewrite (newEffects_extends st _
               ([call_getLastBillNumber; call_createBill bill;
                 toast (savedToast n)]
                ++ if shouldPrint then [call_printBill bill s0] else []))
      in Hin by reflexivity.
    destruct Hin as [Hin|[Hin|[Hin|Hin]]]; try discriminate.
    destruct shouldPrint; [|contradiction].
    destruct Hin as [Hin|[]]. injection Hin as -> ->.
    split; [reflexivity|]. split; [exact Hs|].
    cbn [st_bills]. unfold Db.getBill.
    rewrite (db_get_insert _ _ _ Hkey). now rewrite String.eqb_refl.
Qed.


End SaveBillOutcomes.

(* ================================================================== *)
(** ** The sequencer reads back what it wrote *)
(* ================================================================== *)

Section SequencerRoundTrip.

Import JS.
#[local] Open Scope list_scope.

Lemma of_lu_nat_N (d : Decimal.uint) :
  DecimalNat.Unsigned.of_lu d = N.to_nat (DecimalPos.Unsigned.of_lu d).
Proof.
  induction d; cbn [DecimalNat.Unsigned.of_lu DecimalPos.Unsigned.of_lu];
    rewrite ?IHd; lia.
Qed.

Lemma nat_of_uint_to_uint (n : N) :
  Nat.of_uint (N.to_uint n) = N.to_nat n.
Proof.
  rewrite DecimalNat.Unsigned.of_uint_alt, of_lu_nat_N.
  rewrite <- DecimalPos.Unsigned.of_uint_alt.
  change (Pos.of_uint (N.to_uint n)) with (N.of_uint (N.to_uint n)).
  now rewrite DecimalN.Unsigned.of_to.
Qed.

Lemma toString_nonneg (z : Z) :
  (0 <= z)%Z ->
  toString (Num z) = NilEmpty.string_of_uint (N.to_uint (Z.to_N z))
  /\ N.to_uint (Z.to_N z) <> Decimal.Nil.
Proof.
  intros Hz. destruct z as [|p|p]; [| |lia].
  - split; [reflexivity | discriminate].
  - pose proof (DecimalPos.Unsigned.to_uint_nonnil p) as Hnn.
    split; [|exact Hnn].
    simpl. unfold NilZero.string_of_uint.
    destruct (Pos.to_uint p); [congruence | reflexivity ..].
Qed.

Lemma string_of_uint_nonempty (d : Decimal.uint) :
  d <> Decimal.Nil -> NilEmpty.string_of_uint d <> ""%string.
Proof. destruct d; [congruence | discriminate ..]. Qed.

Lemma uint_of_zeros (k : nat) (s : string) (d : Decimal.uint) :
  NilEmpty.uint_of_string s = Some d ->
  NilEmpty.uint_of_string (zeros k ++ s)%string
  = Some (Nat.iter k Decimal.D0 d).
Proof.
  intros Hs. induction k as [|k IH]; simpl; [exact Hs|].
  now rewrite IH.
Qed.

Lemma nat_of_uint_leading_zeros (k : nat) (d : Decimal.uint) :
  Nat.of_uint (Nat.iter k Decimal.D0 d) = Nat.of_uint d.
Proof.
  induction k as [|k IH]; [reflexivity|]. simpl Nat.iter.
  rewrite <- IH. reflexivity.
Qed.

Lemma zeros_append_nonempty (k : nat) (s : string) :
  s <> ""%string -> (zeros k ++ s)%string <> ""%string.
Proof. destruct k; simpl; [auto | discriminate]. Qed.

(** [parseInt] reads a number from 0 to 2^53 back from its padded
    numeral. *)
Lemma parseInt_padStart_toString (z : Z) :
  (0 <= z <= 2 ^ 53)%Z ->
  parseInt (padStart 4 "0" (toString (Num z))) = Num z.
Proof.
  intros [Hz Hsafe]. destruct (toString_nonneg z Hz) as [Hstr Hnn].
  rewrite padStart_zero, Hstr.
  set (d := N.to_uint (Z.to_N z)) in *.
  set (k := (4 - String.length (NilEmpty.string_of_uint d))%nat).
  rewrite (parseInt_decimal _ (Nat.iter k Decimal.D0 d)).
  - rewrite nat_of_uint_leading_zeros. unfold d.
    rewrite nat_of_uint_to_uint.
    replace (Z.of_nat (N.to_nat (Z.to_N z))) with z by lia.
    rewrite roundDouble_exact; [reflexivity|].
    now rewrite Z.abs_eq.
  - apply zeros_append_nonempty. now apply string_of_uint_nonempty.
  - apply uint_of_zeros. apply NilEmpty.usu.
Qed.

Lemma getLastBillNumber_rereads_its_numbers_aux
    (bills : list Bill) (lastBill : Bill) (z : Z) :
  (0 <= z < 2 ^ 53)%Z /\ billNumber lastBill = billNumberOf z ->
  Db.getLastBillNumber (bills ++ [lastBill])
  = Db.Resolved (billNumberOf (z + 1)).
Proof.
  intros [[Hz Hsafe] Hnum].
  assert (E53 : (2 ^ 53 = 9007199254740992)%Z) by reflexivity.
  rewrite getLastBillNumber_last, Hnum. unfold billNumberOf.
  rewrite replace_BILL_prefix.
  rewrite (parseInt_padStart_toString z) by lia.
  cbn [add]. rewrite roundDouble_exact; [reflexivity|].
  rewrite Z.abs_eq; lia.
Qed.

(** A bill whose number the sequencer wrote for a number z below 2^53 is
    followed by the number for z + 1: the numbers the sequencer writes
    are numbers it reads, past 9999 as well. *)
Theorem getLastBillNumber_rereads_its_numbers
    (bills : list Bill) (lastBill : Bill) (z : Z) :
  (0 <= z < 2 ^ 53)%Z ->
  billNumber lastBill = billNumberOf z ->
  Db.getLastBillNumber (bills ++ [lastBill])
  = Db.Resolved (billNumberOf (z + 1)).
Proof.
  intros Hz Hnum. apply getLastBillNumber_rereads_its_numbers_aux.
  now split.
Qed.

Lemma getLastBillNumber_rereads_its_numbers_witness :
  Db.getLastBillNumber
    ([] ++ [sampleBill "bill-1" (billNumberOf 9999) "2024-03-15T10:00:00.000Z"
              [] 0 0 0 0])
  = Db.Resolved (billNumberOf (9999 + 1)).
Proof.
  apply (getLastBillNumber_rereads_its_numbers []
           (sampleBill "bill-1" (billNumberOf 9999) "2024-03-15T10:00:00.000Z"
              [] 0 0 0 0) 9999);
    [split; [lia | reflexivity] | reflexivity].
Defined.

Lemma string_length_append (s t : string) :
  String.length (s ++ t)%string = (String.length s + String.length t)%nat.
Proof. induction s as [|c s IH]; simpl; [reflexivity | now rewrite IH]. Qed.

Lemma zeros_length (k : nat) : String.length (zeros k) = k.
Proof. induction k as [|k IH]; simpl; [reflexivity | now rewrite IH]. Qed.

(** Whatever the store holds, the sequencer answers with a string that
    starts with BILL and has at least 8 characters; it never fails. *)
Theorem getLastBillNumber_shape (s : Db.store) :
  exists v,
    Db.getLastBillNumber s = Db.Resolved v
    /\ String.prefix "BILL" v = true
    /\ (8 <= String.length v)%nat.
Proof.
  destruct s as [|first rest].
  - exists "BILL0000"%string. repeat split. simpl. lia.
  - unfold Db.getLastBillNumber, Db.getAllBills. eexists.
    split; [reflexivity|]. split.
    + simpl. destruct (padStart 4 "0" _); reflexivity.
    + rewrite padStart_zero.
      change (String.length ("BILL" ++ ?x)%string)
        with (S (S (S (S (String.length x))))).
      rewrite string_length_append, zeros_length. cbn [String.length].
      lia.
Qed.

End SequencerRoundTrip.

(* ================================================================== *)
(** ** Saving a bill: numbers of successive bills, and sample runs *)
(* ================================================================== *)

Section SaveBillNumbers.

Import Billing.
#[local] Open Scope list_scope.

Lemma string_ltb_irrefl (s : string) : String.ltb s s = false.
Proof.
  unfold String.ltb. pose proof (String.compare_antisym s s) as H.
  destruct (String.compare s s); simpl in H; congruence.
Qed.

Lemma string_ltb_asym (a b : string) :
  String.ltb a b = true -> String.ltb b a = false.
Proof.
  unfold String.ltb. rewrite (String.compare_antisym b a).
  destruct (String.compare a b); simpl; congruence.
Qed.

Lemma insert_after_all (b : Bill) (s : Db.store) :
  Forall (fun x => String.ltb (id x) (id b) = true) s ->
  Db.insert b s = s ++ [b].
Proof.
  induction 1 as [|x s Hx _ IH]; simpl; [reflexivity|].
  now rewrite (string_ltb_asym _ _ Hx), IH.
Qed.

Lemma all_before_no_key (b : Bill) (s : Db.store) :
  Forall (fun x => String.ltb (id x) (id b) = true) s ->
  Db.has_key (id b) s = false.
Proof.
  unfold Db.has_key. induction 1 as [|x s Hx _ IH]; simpl; [reflexivity|].
  rewrite IH, orb_false_r. apply String.eqb_neq. intros E.
  rewrite E, string_ltb_irrefl in Hx. discriminate.
Qed.

(** When every stored bill has an id that comes before the new one (the
    clock has moved on since the last save) and the last bill of the
    store carries the number the sequencer wrote for z, with z + 1 below
    2^53, a save that goes through stores its bill last, under the number
    for z + 1, and the sequencer then answers with the number for
    z + 2. *)
Theorem handleSaveBill_numbers_follow
    (shouldPrint : bool) (now : Z) (nowIso : string) (st : State)
    (user : User) (settings : AppSettings)
    (bills : list Bill) (lastBill : Bill) (z : Z) :
  st_cart st <> [] ->
  st_user st = Some user ->
  st_settings st = Some settings ->
  Forall (fun x =>
            String.ltb (id x) ("bill-" ++ JS.toString (JS.Num now))%string
            = true) (st_bills st) ->
  st_bills st = bills ++ [lastBill] ->
  billNumber lastBill = billNumberOf z ->
  (0 <= z /\ z + 1 < 2 ^ 53)%Z ->
  let st' := handleSaveBill shouldPrint now nowIso st in
  exists b,
    Db.getAllBills (st_bills st') = Db.getAllBills (st_bills st) ++ [b]
    /\ billNumber b = billNumberOf (z + 1)
    /\ Db.getLastBillNumber (st_bills st')
       = Db.Resolved (billNumberOf (z + 1 + 1)).
Proof.
  intros Hcart Huser Hsettings Hbefore Hbills Hnum [Hz Hsafe] st'.
  assert (E53 : (2 ^ 53 = 9007199254740992)%Z) by reflexivity.
  destruct (handleSaveBill_attempt_state shouldPrint now nowIso st user
              settings Hcart Huser Hsettings) as [n [Hn [_ Hok]]].
  cbv zeta in Hok.
  match type of Hok with
  | Db.has_key (id ?b) _ = false -> _ => set (bill := b) in *
  end.
  assert (Hbefore' :
            Forall (fun x => String.ltb (id x) (id bill) = true) (st_bills st))
    by exact Hbefore.
  specialize (Hok (all_before_no_key _ _ Hbefore')).
  assert (Hn' : n = billNumberOf (z + 1)).
  { rewrite Hbills in Hn.
    rewrite (getLastBillNumber_rereads_its_numbers_aux bills lastBill z)
      in Hn by (split; [lia | exact Hnum]).
    now injection Hn as <-. }
  subst st'. rewrite Hok. cbn [st_bills]. unfold Db.getAllBills.
  rewrite (insert_after_all _ _ Hbefore').
  exists bill. split; [reflexivity|]. split; [exact Hn'|].
  apply getLastBillNumber_rereads_its_numbers_aux.
  split; [lia | exact Hn'].
Qed.

Lemma handleSaveBill_numbers_follow_witness :
  let st := sampleState sampleCart (Some sampleUser)
              (Some (sampleSettings (Some 2.5%Q) (Some 2.5%Q)))
              ([] ++ [sampleBill "bill-1" (billNumberOf 41)
                        "2024-03-14T09:00:00.000Z" [] 0 0 0 0]) in
  let st' := handleSaveBill false 1710496800000 "2024-03-15T10:00:00.000Z" st in
  exists b,
    Db.getAllBills (st_bills st') = Db.getAllBills (st_bills st) ++ [b]
    /\ billNumber b = billNumberOf (41 + 1)
    /\ Db.getLastBillNumber (st_bills st')
       = Db.Resolved (billNumberOf (41 + 1 + 1)).
Proof.
  intros st.
  apply (handleSaveBill_numbers_follow false 1710496800000
           "2024-03-15T10:00:00.000Z" st sampleUser
           (sampleSettings (Some 2.5%Q) (Some 2.5%Q)) []
           (sampleBill "bill-1" (billNumberOf 41)
              "2024-03-14T09:00:00.000Z" [] 0 0 0 0) 41);
    try reflexivity.
  - discriminate.
  - repeat constructor.
  - split; [lia | reflexivity].
Defined.

Lemma handleSaveBill_saves_witness :
  let st := mkState sampleCart "Asha" "" upi
              (Some (sampleSettings (Some 2.5%Q) (Some 2.5%Q)))
              (Some sampleUser) [] [] in
  let st' := handleSaveBill true 1710496800000 "2024-03-15T10:00:00.000Z" st in
  exists b,
    (forall k,
       Db.getBill k (st_bills st')
       = if String.eqb k (id b) then Some b else Db.getBill k (st_bills st))
    /\ List.length (st_bills st') = S (List.length (st_bills st))
    /\ Db.getLastBillNumber (st_bills st) = Db.Resolved (billNumber b)
    /\ id b = ("bill-" ++ JS.toString (JS.Num 1710496800000))%string
    /\ items b = st_cart st
    /\ createdBy b = user_id sampleUser
    /\ createdByName b = user_name sampleUser
    /\ createdAt b = "2024-03-15T10:00:00.000Z"%string
    /\ paymentMethod b = Some (st_paymentMethod st)
    /\ customerName b
       = (if String.eqb (st_customerName st) "" then None
          else Some (st_customerName st))
    /\ customerPhone b
       = (if String.eqb (st_customerPhone st) "" then None
          else Some (st_customerPhone st))
    /\ syncedToCloud b = false
    /\ st_cart st' = [] /\ st_customerName st' = ""%string
    /\ st_customerPhone st' = ""%string /\ st_paymentMethod st' = cash
    /\ In (toast (savedToast (billNumber b))) (newEffects st st').
Proof.
  intros st.
  apply (handleSaveBill_saves true 1710496800000 "2024-03-15T10:00:00.000Z"
           st sampleUser (sampleSettings (Some 2.5%Q) (Some 2.5%Q)));
    try reflexivity.
  discriminate.
Defined.

Lemma handleSaveBill_id_taken_witness :
  let old := sampleBill "bill-1710496800000" "BILL0000"
               "2024-03-15T10:00:00.000Z" sampleCart 1000 25 25 1050 in
  let st := sampleState sampleCart (Some sampleUser)
              (Some (sampleSettings (Some 2.5%Q) (Some 2.5%Q))) [old] in
  let st' := handleSaveBill true 1710496800000 "2024-03-15T10:00:00.000Z" st in
  st_bills st' = st_bills st
  /\ st_cart st' = st_cart st
  /\ st_customerName st' = st_customerName st
  /\ st_customerPhone st' = st_customerPhone st
  /\ st_paymentMethod st' = st_paymentMethod st
  /\ last (newEffects st st') (toast emptyCartToast) = toast failedToast
  /\ forall b s, ~ In (call_printBill b s) (newEffects st st').
Proof.
  intros old st.
  apply (handleSaveBill_id_taken true 1710496800000
           "2024-03-15T10:00:00.000Z" st sampleUser
           (sampleSettings (Some 2.5%Q) (Some 2.5%Q)) old);
    try reflexivity.
  discriminate.
Defined.

Lemma handleSaveBill_prints_stored_bill_witness :
  let st := sampleState sampleCart (Some sampleUser)
              (Some (sampleSettings (Some 2.5%Q) (Some 2.5%Q))) [] in
  let b := newBill 1710496800000 "2024-03-15T10:00:00.000Z" "BILL0000"
             (calculateTotals sampleCart (st_settings st)) sampleUser st in
  true = true
  /\ st_settings st = Some (sampleSettings (Some 2.5%Q) (Some 2.5%Q))
  /\ Db.getBill (id b)
       (st_bills (handleSaveBill true 1710496800000
                    "2024-03-15T10:00:00.000Z" st))
     = Some b.
Proof.
  intros st b.
  apply (handleSaveBill_prints_stored_bill true 1710496800000
           "2024-03-15T10:00:00.000Z" st b
           (sampleSettings (Some 2.5%Q) (Some 2.5%Q))).
  right. right. right. left. reflexivity.
Defined.


End SaveBillNumbers.

(* ================================================================== *)
(** ** The report: the table of bills *)
(* ================================================================== *)

Section ReportFacts.

Import Reports ReportsTable JSText.
#[local] Open Scope list_scope.

(** Up to 50 bills the table lists them all. *)
Theorem tableRows_all_up_to_50 (filteredBills : list Bill) :
  (List.length filteredBills <= 50)%nat ->
  tableRows filteredBills = filteredBills.
Proof.
  intros Hlen. unfold tableRows, slice.
  change (skipn 0 filteredBills) with filteredBills.
  now apply firstn_all2.
Qed.

Lemma tableRows_all_up_to_50_witness :
  tableRows [sampleBill "bill-1" "BILL0000" "2024-03-15T10:00:00.000Z"
               sampleCart 1000 25 25 1050]
  = [sampleBill "bill-1" "BILL0000" "2024-03-15T10:00:00.000Z"
       sampleCart 1000 25 25 1050].
Proof.
  apply (tableRows_all_up_to_50
           [sampleBill "bill-1" "BILL0000" "2024-03-15T10:00:00.000Z"
              sampleCart 1000 25 25 1050]).
  simpl. lia.
Defined.

Lemma firstn_nth_error_In {A : Type} (n : nat) (xs : list A) (x : A) :
  In x (firstn n xs) -> exists i, (i < n)%nat /\ nth_error xs i = Some x.
Proof.
  revert xs. induction n as [|n IH]; intros xs Hin; [destruct Hin|].
  destruct xs as [|y xs]; [destruct Hin|].
  destruct Hin as [->|Hin].
  - exists 0%nat. split; [lia | reflexivity].
  - destruct (IH xs Hin) as [i [Hi Hnth]].
    exists (S i). split; [lia | exact Hnth].
Qed.

(** Past 50 bills the table stops at the 50th in store order: a bill
    that comes later, the newest included, is not listed, while the
    summary still counts it. *)
Theorem tableRows_omits_bills_after_50
    (filteredBills : list Bill) (i : nat) (b : Bill) :
  NoDup (map id filteredBills) ->
  nth_error filteredBills i = Some b ->
  (50 <= i)%nat ->
  ~ In b (tableRows filteredBills)
  /\ List.length (tableRows filteredBills) = 50%nat
  /\ (50 < billCount filteredBills)%Z.
Proof.
  intros Hnd Hnth Hi.
  assert (Hlen : (i < List.length filteredBills)%nat).
  { apply nth_error_Some. congruence. }
  unfold tableRows, slice, billCount.
  change (skipn 0 filteredBills) with filteredBills.
  split; [|split; [rewrite length_firstn; lia | lia]].
  intros Hin. apply firstn_nth_error_In in Hin as [j [Hj Hjth]].
  assert (Hij : j = i).
  { apply (proj1 (NoDup_nth_error (map id filteredBills)) Hnd).
    - rewrite length_map. apply nth_error_Some. congruence.
    - now rewrite !nth_error_map, Hnth, Hjth. }
  lia.
Qed.

End ReportFacts.

(* ================================================================== *)
(** ** The menu the Billing page offers *)
(* ================================================================== *)

Section OfferedMenu.

Import BillingMenu JSText.
#[local] Open Scope list_scope.

Lemma prefix_empty (s : string) : String.prefix "" s = true.
Proof. now destruct s. Qed.

Lemma includes_empty (s : string) : includes "" s = true.
Proof. destruct s; reflexivity. Qed.

Lemma lowerChar_idempotent (c : ascii) :
  lowerChar (lowerChar c) = lowerChar c.
Proof.
  destruct c as [[|] [|] [|] [|] [|] [|] [|] [|]]; reflexivity.
Qed.

Lemma toLowerCase_idempotent (s : string) :
  toLowerCase (toLowerCase s) = toLowerCase s.
Proof.
  induction s as [|c s IH]; simpl; [reflexivity|].
  now rewrite lowerChar_idempotent, IH.
Qed.

Lemma prefix_toLowerCase (q s : string) :
  String.prefix q s = true ->
  String.prefix (toLowerCase q) (toLowerCase s) = true.
Proof.
  revert q. induction s as [|c s IH]; intros [|d q]; simpl;
    try reflexivity; try discriminate.
  destruct (ascii_dec d c) as [->|Hne]; [|discriminate].
  intros Hp. destruct (ascii_dec (lowerChar c) (lowerChar c)); [|congruence].
  now apply IH.
Qed.

Lemma includes_toLowerCase (q s : string) :
  includes q s = true -> includes (toLowerCase q) (toLowerCase s) = true.
Proof.
  induction s as [|c s IH].
  - destruct q; simpl; [reflexivity | discriminate].
  - cbn [includes toLowerCase].
    destruct (String.prefix q (String c s)) eqn:E.
    + intros _. pose proof (prefix_toLowerCase q (String c s) E) as Hp.
      cbn [toLowerCase] in Hp. now rewrite Hp.
    + intros H.
      destruct (String.prefix (toLowerCase q)
                  (String (lowerChar c) (toLowerCase s)));
        [reflexivity | now apply IH].
Qed.

Lemma filter_all_true {A : Type} (p : A -> bool) (xs : list A) :
  (forall x, p x = true) -> filter p xs = xs.
Proof.
  intros Hp. induction xs as [|x xs IH]; simpl; [reflexivity|].
  now rewrite Hp, IH.
Qed.

(** With the category [all] and an empty search box every item of the
    menu is offered, in the menu's order. *)
Theorem filteredItems_no_filter (menuItems : list MenuItem) :
  filteredItems "all" "" menuItems = menuItems.
Proof.
  unfold filteredItems. apply filter_all_true.
  intros item. cbv zeta. change (toLowerCase "") with ""%string.
  now rewrite includes_empty.
Qed.

(** The search does not look at the case of the query: a query and its
    lower-case form offer the same items. *)
Theorem filteredItems_ignores_query_case
    (selectedCategory searchQuery : string) (menuItems : list MenuItem) :
  filteredItems selectedCategory (toLowerCase searchQuery) menuItems
  = filteredItems selectedCategory searchQuery menuItems.
Proof.
  unfold filteredItems. now rewrite toLowerCase_idempotent.
Qed.

(** For names and queries of code units below 256, where lower-casing
    goes one code unit at a time: an item in the selected category whose
    name contains the query as typed is offered, whatever the case of
    either. *)
Theorem filteredItems_offers_literal_match
    (selectedCategory searchQuery : string) (menuItems : list MenuItem)
    (item : MenuItem) :
  In item menuItems ->
  selectedCategory = "all"%string \/ mi_category item = selectedCategory ->
  includes searchQuery (mi_name item) = true ->
  In item (filteredItems selectedCategory searchQuery menuItems).
Proof.
  intros Hin Hcat Hname. unfold filteredItems.
  apply filter_In. split; [exact Hin|]. cbv zeta.
  rewrite (includes_toLowerCase _ _ Hname), andb_true_r.
  apply orb_true_iff.
  destruct Hcat as [->| ->]; [left | right]; apply String.eqb_refl.
Qed.

Lemma filteredItems_offers_literal_match_witness :
  let menu := [mkMenuItem "menu-1" "Veg Manchurian" 150 "Starters" true;
               mkMenuItem "menu-3" "Butter Chicken" 280 "Main Course" true] in
  In (mkMenuItem "menu-3" "Butter Chicken" 280 "Main Course" true)
     (filteredItems "Main Course" "Chick" menu).
Proof.
  intros menu.
  apply (filteredItems_offers_literal_match "Main Course" "Chick" menu
           (mkMenuItem "menu-3" "Butter Chicken" 280 "Main Course" true));
    [right; left; reflexivity | right; reflexivity | reflexivity].
Defined.

Lemma setFrom_step_spec (xs : list string) :
  forall seen,
    NoDup seen ->
    NoDup (fold_left
             (fun seen x => if existsb (String.eqb x) seen then seen
                            else seen ++ [x]) xs seen)
    /\ forall c,
         In c (fold_left
                 (fun seen x => if existsb (String.eqb x) seen then seen
                                else seen ++ [x]) xs seen)
         <-> In c seen \/ In c xs.
Proof.
  induction xs as [|x xs IH]; intros seen Hnd; simpl.
  - split; [exact Hnd | intros c; tauto].
  - destruct (existsb (String.eqb x) seen) eqn:E.
    + destruct (IH seen Hnd) as [Hnd' Hin]. split; [exact Hnd'|].
      intros c. rewrite Hin.
      apply existsb_exists in E as [y [Hy Hxy]].
      apply String.eqb_eq in Hxy. subst y.
      split; [tauto|]. intros [H|[<-|H]]; tauto.
    + assert (Hnotin : ~ In x seen).
      { intros Hx. assert (existsb (String.eqb x) seen = true).
        { apply existsb_exists. exists x. split; [exact Hx|].
          apply String.eqb_refl. }
        congruence. }
      assert (Hnd2 : NoDup (seen ++ [x])).
      { rewrite <- (rev_involutive (seen ++ [x])). apply NoDup_rev.
        rewrite rev_app_distr. simpl. constructor.
        - now rewrite <- in_rev.
        - now apply NoDup_rev. }
      destruct (IH (seen ++ [x]) Hnd2) as [Hnd' Hin]. split; [exact Hnd'|].
      intros c. rewrite Hin, in_app_iff. simpl. tauto.
Qed.

Lemma categories_cover_menu_aux (menuItems : list MenuItem) :
  hd_error (categories menuItems) = Some "all"%string
  /\ NoDup (tl (categories menuItems))
  /\ forall c,
       In c (tl (categories menuItems))
       <-> exists item, In item menuItems /\ mi_category item = c.
Proof.
  unfold categories, setFrom. simpl.
  destruct (setFrom_step_spec (map (fun item => mi_category item) menuItems)
              [] (NoDup_nil _)) as [Hnd Hin].
  split; [reflexivity|]. split; [exact Hnd|].
  intros c. rewrite Hin, in_map_iff. simpl.
  split.
  - intros [[]|[item [Hc Hitem]]]. now exists item.
  - intros [item [Hitem Hc]]. right. now exists item.
Qed.

(** The category buttons: [all] comes first; after it every category of
    the menu appears exactly once, and nothing else appears. *)
Theorem categories_cover_menu (menuItems : list MenuItem) :
  hd_error (categories menuItems) = Some "all"%string
  /\ NoDup (tl (categories menuItems))
  /\ forall c,
       In c (tl (categories menuItems))
       <-> exists item, In item menuItems /\ mi_category item = c.
Proof. exact (categories_cover_menu_aux menuItems). Qed.

(** With the search box empty, every category button after [all] offers
    at least one item. *)
Theorem category_offers_an_item (menuItems : list MenuItem) (c : string) :
  In c (tl (categories menuItems)) ->
  filteredItems c "" menuItems <> [].
Proof.
  intros Hc.
  destruct (proj2 (proj2 (categories_cover_menu_aux menuItems)) c) as [Hex _].
  destruct (Hex Hc) as [item [Hitem Hcat]].
  assert (Hin : In item (filteredItems c "" menuItems)).
  { unfold filteredItems. apply filter_In. split; [exact Hitem|].
    cbv zeta. simpl toLowerCase. rewrite includes_empty, andb_true_r.
    apply orb_true_iff. right. rewrite Hcat. apply String.eqb_refl. }
  intros Hnil. now rewrite Hnil in Hin.
Qed.

Lemma category_offers_an_item_witness :
  filteredItems "Starters" ""
    [mkMenuItem "menu-1" "Veg Manchurian" 150 "Starters" true;
     mkMenuItem "menu-3" "Butter Chicken" 280 "Main Course" true]
  <> [].
Proof.
  apply (category_offers_an_item
           [mkMenuItem "menu-1" "Veg Manchurian" 150 "Starters" true;
            mkMenuItem "menu-3" "Butter Chicken" 280 "Main Course" true]
           "Starters").
  left. reflexivity.
Defined.

(** What the page offers is taken from the available items only: an item
    switched off in the menu is never offered, whatever the category and
    the search. *)
Theorem offered_items_are_available
    (selectedCategory searchQuery : string) (items : list MenuItem)
    (item : MenuItem) :
  In item (filteredItems selectedCategory searchQuery (loadMenuItems items)) ->
  mi_isAvailable item = true /\ In item items.
Proof.
  unfold filteredItems, loadMenuItems. intros Hin.
  apply filter_In in Hin as [Hin _].
  apply filter_In in Hin as [Hin Hav]. now split.
Qed.

Lemma offered_items_are_available_witness :
  let item := mkMenuItem "menu-1" "Veg Manchurian" 150 "Starters" true in
  let off := mkMenuItem "menu-3" "Butter Chicken" 280 "Main Course" false in
  mi_isAvailable item = true /\ In item [item; off].
Proof.
  intros item off.
  apply (offered_items_are_available "all" "veg" [item; off] item).
  left. reflexivity.
Defined.

End OfferedMenu.

(* ================================================================== *)
(** ** The stores: adding, reading back, replacing, deleting, ranges *)
(* ================================================================== *)

Section StoreFacts.

#[local] Open Scope list_scope.

Lemma HdRel_insert (b x : Bill) (s : Db.store) :
  String.ltb (id x) (id b) = true ->
  HdRel (fun p q => String.ltb p q = true) (id x) (map id s) ->
  HdRel (fun p q => String.ltb p q = true) (id x) (map id (Db.insert b s)).
Proof.
  intros Hxb Hhd. destruct s as [|y s]; simpl.
  - now constructor.
  - destruct (String.ltb (id b) (id y)); simpl.
    + now constructor.
    + inversion Hhd; subst. now constructor.
Qed.

Lemma string_ltb_total (a b : string) :
  String.ltb a b = false -> a <> b -> String.ltb b a = true.
Proof.
  unfold String.ltb. rewrite (String.compare_antisym b a).
  destruct (String.compare a b) eqn:E; simpl; try congruence.
  intros _ Hne. apply String.compare_eq_iff in E. contradiction.
Qed.

(** Inserting by key keeps the ids in ascending order. *)
Lemma insert_ascending (b : Bill) (s : Db.store) :
  Db.has_key (id b) s = false -> ascendingIds s ->
  ascendingIds (Db.insert b s).
Proof.
  unfold ascendingIds, Db.has_key.
  induction s as [|x s IH]; simpl; intros Hkey Hs.
  - repeat constructor.
  - apply orb_false_iff in Hkey as [Hxb Hkey].
    apply String.eqb_neq in Hxb.
    inversion Hs as [|? ? Hs' Hhd]; subst.
    destruct (String.ltb (id b) (id x)) eqn:E; simpl.
    + constructor; [exact Hs | now constructor].
    + constructor; [now apply IH|].
      apply HdRel_insert; [|exact Hhd].
      apply string_ltb_total; [exact E | congruence].
Qed.

Lemma replace_ids (b : Bill) (s : Db.store) :
  map id (Db.replace b s) = map id s.
Proof.
  induction s as [|x s IH]; simpl; [reflexivity|].
  destruct (String.eqb_spec (id x) (id b)) as [E|E]; simpl.
  - now rewrite E.
  - now rewrite IH.
Qed.

Lemma in_insert (b : Bill) (s : Db.store) : In b (Db.insert b s).
Proof.
  induction s as [|x s IH]; simpl; [now left|].
  destruct (String.ltb (id b) (id x)); simpl; [now left | now right].
Qed.

(** After createBill accepted a bill, getBill returns it under its id and
    returns under any other id what it returned before; getAllBills has
    one record more and, if it was in ascending order of the ids, it
    still is. *)
Theorem createBill_then_getBill (b : Bill) (s s' : Db.store) (k : string) :
  Db.createBill b s = Db.Resolved s' ->
  Db.getBill k s'
  = (if String.eqb k (id b) then Some b else Db.getBill k s)
  /\ List.length (Db.getAllBills s') = S (List.length (Db.getAllBills s))
  /\ (ascendingIds s -> ascendingIds s').
Proof.
  unfold Db.createBill, Db.db_add, Db.getAllBills, Db.getBill.
  destruct (Db.has_key (id b) s) eqn:Ekey; [discriminate|].
  intros [= <-]. split; [now apply db_get_insert|].
  split; [apply length_insert | now apply insert_ascending].
Qed.

Lemma createBill_then_getBill_witness :
  let b := sampleBill "bill-1710496800000" "BILL0001"
             "2024-03-15T10:00:00.000Z" sampleCart 1000 25 25 1050 in
  let old := sampleBill "bill-1710496900000" "BILL0000"
               "2024-03-15T10:01:40.000Z" [] 0 0 0 0 in
  Db.getBill "bill-1710496800000" [b; old]
  = (if String.eqb "bill-1710496800000" (id b) then Some b
     else Db.getBill "bill-1710496800000" [old])
  /\ List.length (Db.getAllBills [b; old])
     = S (List.length (Db.getAllBills [old]))
  /\ (ascendingIds [old] -> ascendingIds [b; old]).
Proof.
  intros b old.
  apply (createBill_then_getBill b [old] [b; old] "bill-1710496800000").
  reflexivity.
Defined.

(** updateBill is an upsert that keeps the store in order: when a bill
    has the given id, the ids of the store stay as they are; when none
    has, the bill is stored and the store has one record more; and a
    store in ascending order of the ids stays so. *)
Theorem updateBill_upsert (b : Bill) (s : Db.store) :
  match Db.getBill (id b) s with
  | Some _ => map id (Db.updateBill b s) = map id s
  | None =>
      In b (Db.updateBill b s)
      /\ List.length (Db.updateBill b s) = S (List.length s)
  end
  /\ (ascendingIds s -> ascendingIds (Db.updateBill b s)).
Proof.
  unfold Db.updateBill, Db.db_put.
  destruct (Db.has_key (id b) s) eqn:Ekey.
  - split.
    + destruct (Db.getBill (id b) s) eqn:Eget; [apply replace_ids|].
      rewrite (getBill_none_has_key _ _ Eget) in Ekey. discriminate.
    + unfold ascendingIds. now rewrite replace_ids.
  - split.
    + rewrite (has_key_false_getBill _ _ Ekey).
      split; [apply in_insert | apply length_insert].
    + now apply insert_ascending.
Qed.

Lemma string_compare_le_trans (a x b : string) :
  String.compare a x <> Gt -> String.compare x b <> Gt ->
  String.compare a b <> Gt.
Proof.
  revert x b. induction a as [|c a IH]; intros [|d x] [|e b]; simpl;
    try congruence.
  unfold Ascii.compare.
  destruct (N.compare_spec (N_of_ascii c) (N_of_ascii d)) as [Hcd|Hcd|Hcd];
    destruct (N.compare_spec (N_of_ascii d) (N_of_ascii e)) as [Hde|Hde|Hde];
    destruct (N.compare_spec (N_of_ascii c) (N_of_ascii e)) as [Hce|Hce|Hce];
    try congruence; try lia.
  apply IH.
Qed.

(** A range whose end comes before its start holds no bill. *)
Theorem getBillsByDateRange_inverted_range
    (startDate endDate : string) (s : Db.store) :
  String.ltb endDate startDate = true ->
  DbQuery.getBillsByDateRange startDate endDate s = [].
Proof.
  intros Hinv. unfold DbQuery.getBillsByDateRange, Db.getAllBills.
  induction s as [|x s IH]; simpl; [reflexivity|].
  destruct (String.leb startDate (createdAt x)) eqn:E1;
    destruct (String.leb (createdAt x) endDate) eqn:E2; simpl;
    try exact IH.
  exfalso. unfold String.leb, String.ltb in *.
  assert (H : String.compare startDate endDate <> Gt).
  { apply (string_compare_le_trans _ (createdAt x)).
    - destruct (String.compare startDate (createdAt x)); congruence.
    - destruct (String.compare (createdAt x) endDate); congruence. }
  rewrite String.compare_antisym in H.
  destruct (String.compare endDate startDate); simpl in H; congruence.
Qed.

Lemma getBillsByDateRange_inverted_range_witness :
  DbQuery.getBillsByDateRange "2024-03-16T00:00:00.000Z"
    "2024-03-15T00:00:00.000Z" (sampleBills 3) = [].
Proof.
  apply (getBillsByDateRange_inverted_range "2024-03-16T00:00:00.000Z"
           "2024-03-15T00:00:00.000Z" (sampleBills 3)).
  reflexivity.
Defined.

Lemma string_leb_refl (s : string) : String.leb s s = true.
Proof.
  destruct (String.leb_total s s) as [H|H]; exact H.
Qed.

(** Both ends of the range count: a bill created exactly at the start or
    exactly at the end of a range is returned. *)
Theorem getBillsByDateRange_bounds_inclusive
    (startDate endDate : string) (s : Db.store) (b : Bill) :
  In b (Db.getAllBills s) ->
  String.leb startDate endDate = true ->
  createdAt b = startDate \/ createdAt b = endDate ->
  In b (DbQuery.getBillsByDateRange startDate endDate s).
Proof.
  intros Hin Hle Hat. unfold DbQuery.getBillsByDateRange.
  apply filter_In. split; [exact Hin|].
  destruct Hat as [-> | ->].
  - now rewrite string_leb_refl, Hle.
  - now rewrite string_leb_refl, Hle.
Qed.

Lemma getBillsByDateRange_bounds_inclusive_witness :
  In (sampleBill "bill-0" (billNumberOf 0) "2024-03-15T10:00:00.000Z" []
        0 0 0 0)
     (DbQuery.getBillsByDateRange "2024-03-15T10:00:00.000Z"
        "2024-03-15T23:59:59.999Z" (sampleBills 1)).
Proof.
  apply (getBillsByDateRange_bounds_inclusive "2024-03-15T10:00:00.000Z"
           "2024-03-15T23:59:59.999Z" (sampleBills 1));
    [left; reflexivity | reflexivity | left; reflexivity].
Defined.

(** After deleteMenuItem nothing reads back under the deleted id, and the
    items under other ids read as before; deleting an id that is not
    there, a second time for instance, changes nothing. *)
Theorem deleteMenuItem_then_getMenuItem (k k' : string) (s : MenuDb.store) :
  MenuDb.getMenuItem k' (MenuDb.deleteMenuItem k s)
  = (if String.eqb k' k then None else MenuDb.getMenuItem k' s)
  /\ MenuDb.deleteMenuItem k (MenuDb.deleteMenuItem k s)
     = MenuDb.deleteMenuItem k s.
Proof.
  unfold MenuDb.getMenuItem, MenuDb.deleteMenuItem, MenuDb.db_delete.
  split.
  - induction s as [|x s IH]; simpl.
    + now destruct (String.eqb k' k).
    + destruct (MenuDb.keyIs k x) eqn:Ek; simpl.
      * rewrite IH. destruct (String.eqb_spec k' k) as [->|Hne];
          [reflexivity|].
        unfold MenuDb.keyIs in *. apply String.eqb_eq in Ek.
        destruct (String.eqb_spec (mi_id x) k'); [congruence | reflexivity].
      * destruct (MenuDb.keyIs k' x) eqn:Ek'; [|exact IH].
        unfold MenuDb.keyIs in *. apply String.eqb_eq in Ek'.
        apply String.eqb_neq in Ek.
        destruct (String.eqb_spec k' k); [congruence | reflexivity].
  - induction s as [|x s IH]; simpl; [reflexivity|].
    destruct (negb (MenuDb.keyIs k x)) eqn:E; simpl; [|exact IH].
    now rewrite E, IH.
Qed.

Lemma db_delete_absent (k : string) (s : MenuDb.store) :
  existsb (MenuDb.keyIs k) s = false -> MenuDb.db_delete k s = s.
Proof.
  unfold MenuDb.db_delete.
  induction s as [|x s IH]; simpl; [reflexivity|].
  destruct (MenuDb.keyIs k x); simpl; [discriminate|].
  intros H. now rewrite IH.
Qed.

Lemma db_delete_insert (item : MenuItem) (s : MenuDb.store) :
  MenuDb.db_delete (mi_id item) (MenuDb.insert item s)
  = MenuDb.db_delete (mi_id item) s.
Proof.
  unfold MenuDb.db_delete.
  assert (Hself : negb (MenuDb.keyIs (mi_id item) item) = false).
  { unfold MenuDb.keyIs. now rewrite String.eqb_refl. }
  induction s as [|x s IH]; simpl.
  - now rewrite Hself.
  - destruct (String.ltb (mi_id item) (mi_id x)); simpl.
    + now rewrite Hself.
    + now rewrite IH.
Qed.

(** Deleting an item right after createMenuItem accepted it gives the
    store back as it was. *)
Theorem deleteMenuItem_undoes_create
    (item : MenuItem) (s s' : MenuDb.store) :
  MenuDb.createMenuItem item s = Db.Resolved s' ->
  MenuDb.deleteMenuItem (mi_id item) s' = s.
Proof.
  unfold MenuDb.createMenuItem, MenuDb.deleteMenuItem.
  destruct (existsb (MenuDb.keyIs (mi_id item)) s) eqn:E; [discriminate|].
  intros [= <-]. rewrite db_delete_insert. now apply db_delete_absent.
Qed.

Lemma deleteMenuItem_undoes_create_witness :
  let item := mkMenuItem "menu-7" "Masala Dosa" 90 "Main Course" true in
  let s := [mkMenuItem "menu-1" "Veg Manchurian" 150 "Starters" true] in
  MenuDb.deleteMenuItem (mi_id item) (s ++ [item]) = s.
Proof.
  intros item s.
  apply (deleteMenuItem_undoes_create item s (s ++ [item])). reflexivity.
Defined.

Lemma distinctb_NoDup (xs : list string) :
  distinctb xs = true -> NoDup xs.
Proof.
  induction xs as [|x xs IH]; simpl; [constructor|].
  intros H. apply andb_true_iff in H as [Hx Hrest].
  constructor; [|now apply IH].
  intros Hin. apply negb_true_iff in Hx.
  assert (existsb (String.eqb x) xs = true).
  { apply existsb_exists. exists x. split; [exact Hin|].
    apply String.eqb_refl. }
  congruence.
Qed.

Lemma tableRows_omits_bills_after_50_witness :
  let b := sampleBill "bill-50" (billNumberOf 50) "2024-03-15T10:00:00.000Z"
             [] 0 0 0 0 in
  ~ In b (ReportsTable.tableRows (sampleBills 51))
  /\ List.length (ReportsTable.tableRows (sampleBills 51)) = 50%nat
  /\ (50 < Reports.billCount (sampleBills 51))%Z.
Proof.
  intros b.
  apply (tableRows_omits_bills_after_50 (sampleBills 51) 50 b).
  - apply distinctb_NoDup. vm_compute. reflexivity.
  - reflexivity.
  - lia.
Defined.

End StoreFacts.
